(** * Battery arbitrage notebook: the LP model builder and the result read-back

    Shallow embedding of the code cells of the arbitrage notebook
    (Lecture 11): [build_arbitrage_model], the Pyomo model it populates,
    and the cell that writes the solved values back into the data frame.

    Conventions of the embedding.
    - The numbers of the arbitrage notebook are exact rationals ([Q]);
      rounding of floats is not modelled there.  The profile columns of
      Lecture 3 are binary64 numbers ([float]).  A constraint is kept as
      the expression tree the Python operators build, and gets its
      meaning from [eval] and [holdsb].
    - Python exceptions are values of [exn]; fallible code lives in the
      [result] monad and stops at the first exception, in source order.
    - The notebook's global [df], which the builder reads through
      [len(df)], is passed explicitly as the first argument.
    - A data frame is its list of rows (timestamp index and [price]
      column); [profile.price[t]] is the positional lookup pandas does
      for an integer key on a datetime index.

    Behaviour of the libraries the cells call, as the embedding takes it.
    - Pyomo: [RangeSet(0, -1)] is the empty set; [first()] and [last()] of
      an empty set raise [IndexError]; indexing a variable outside its
      index set raises [KeyError]; a component assigned to a concrete
      model runs its rule at once, once per index and in index order;
      [value] of a variable that holds no value raises [ValueError].
    - pandas: a positional lookup past the end raises [IndexError];
      assigning a list of the wrong length as a column raises
      [ValueError], except on a frame without rows, which takes its index
      from the list; [diff] leaves not-a-number in the first cell;
      [max] of a column skips the cells that are not a number.
    - plotly: [update_layout] raises [ValueError] for a setting the layout
      does not accept; [update_yaxes] without a selector sets every
      y axis.
    - Python: [x / 0] raises [ZeroDivisionError]; [d[key]] on a missing
      key raises [KeyError]. *)

From Stdlib Require Import QArith Qabs Lia Lqa Floats.
From stdpp Require Import base list strings gmap.

Open Scope Q_scope.

(** ** Exceptions and the error monad *)

Inductive exn := KeyError | IndexError | ZeroDivisionError | ValueError.

Inductive result (A : Type) :=
| Ok (a : A)
| Raise (e : exn).
Arguments Ok {A} a.
Arguments Raise {A} e.

#[global] Instance result_ret : MRet result := λ A a, Ok a.
#[global] Instance result_bind : MBind result := λ A B f r,
  match r with
  | Ok a => f a
  | Raise e => Raise e
  end.

(** ** Data frames and parameter dictionaries *)

Record row := { timestamp : Z; price : Q }.

Abbreviation DataFrame := (list row) (only parsing).

(** [len(df)] *)
Definition len (df : DataFrame) : Z := Z.of_nat (length df).

(** [profile.price[t]]: positional, [IndexError] past the end.  The
    builder only asks for [t] in the time set, so [t] is never negative. *)
Definition price_getitem (profile : DataFrame) (t : Z) : result Q :=
  match profile !! Z.to_nat t with
  | Some r => Ok (price r)
  | None => Raise IndexError
  end.

(** [d[key]] on a Python dict *)
Definition dict_getitem (d : gmap string Q) (key : string) : result Q :=
  match d !! key with
  | Some v => Ok v
  | None => Raise KeyError
  end.

(** [a / b] on Python numbers *)
Definition truediv (a b : Q) : result Q :=
  if Qeq_bool b 0 then Raise ZeroDivisionError else Ok (a / b).

(** ** Pyomo expressions *)

Inductive family := Fbess_energy | Fpower_ch | Fpower_dch.

#[global] Instance family_eq_dec : EqDecision family.
Proof. solve_decision. Defined.

Inductive expr :=
| Num (q : Q)
| VarRef (f : family) (t : Z)
| Add (a b : expr)
| Sub (a b : expr)
| Mul (a b : expr).

(** [a <= b], [a >= b], [a == b] on expressions *)
Inductive relational :=
| ELe (a b : expr)
| EGe (a b : expr)
| EEq (a b : expr).

Inductive Domain := Reals | NonNegativeReals.

Record Var := { index_set : list Z; domain : Domain }.

Inductive Sense := minimize | maximize.

Record Objective := { sense : Sense; obj_expr : expr }.

(** A constraint component: one relational expression per index; a scalar
    component has the single index [None]. *)
Definition Constraint := list (option Z * relational).

(** ** The model object *)

Record ConcreteModel := {
  time : list Z;
  bess_energy : Var;
  power_ch : Var;
  power_dch : Var;
  obj : option Objective;
  constraint_power_charge_limit : Constraint;
  constraint_power_discharge_limit : Constraint;
  constraint_energy_max : Constraint;
  constraint_energy_min : Constraint;
  constraint_soc_balance : Constraint;
  constraint_soc_end : Constraint
}.

Definition no_var : Var := {| index_set := []; domain := Reals |}.

(** [opt.ConcreteModel()] *)
Definition ConcreteModel_new : ConcreteModel :=
  {| time := []; bess_energy := no_var; power_ch := no_var; power_dch := no_var;
     obj := None;
     constraint_power_charge_limit := []; constraint_power_discharge_limit := [];
     constraint_energy_max := []; constraint_energy_min := [];
     constraint_soc_balance := []; constraint_soc_end := [] |}.

(** Attribute assignments [model.x = ...], one per attribute the builder sets. *)
Definition set_time (m : ConcreteModel) (s : list Z) : ConcreteModel :=
  {| time := s; bess_energy := bess_energy m; power_ch := power_ch m;
     power_dch := power_dch m; obj := obj m;
     constraint_power_charge_limit := constraint_power_charge_limit m;
     constraint_power_discharge_limit := constraint_power_discharge_limit m;
     constraint_energy_max := constraint_energy_max m;
     constraint_energy_min := constraint_energy_min m;
     constraint_soc_balance := constraint_soc_balance m;
     constraint_soc_end := constraint_soc_end m |}.

Definition set_bess_energy (m : ConcreteModel) (v : Var) : ConcreteModel :=
  {| time := time m; bess_energy := v; power_ch := power_ch m;
     power_dch := power_dch m; obj := obj m;
     constraint_power_charge_limit := constraint_power_charge_limit m;
     constraint_power_discharge_limit := constraint_power_discharge_limit m;
     constraint_energy_max := constraint_energy_max m;
     constraint_energy_min := constraint_energy_min m;
     constraint_soc_balance := constraint_soc_balance m;
     constraint_soc_end := constraint_soc_end m |}.

Definition set_power_ch (m : ConcreteModel) (v : Var) : ConcreteModel :=
  {| time := time m; bess_energy := bess_energy m; power_ch := v;
     power_dch := power_dch m; obj := obj m;
     constraint_power_charge_limit := constraint_power_charge_limit m;
     constraint_power_discharge_limit := constraint_power_discharge_limit m;
     constraint_energy_max := constraint_energy_max m;
     constraint_energy_min := constraint_energy_min m;
     constraint_soc_balance := constraint_soc_balance m;
     constraint_soc_end := constraint_soc_end m |}.

Definition set_power_dch (m : ConcreteModel) (v : Var) : ConcreteModel :=
  {| time := time m; bess_energy := bess_energy m; power_ch := power_ch m;
     power_dch := v; obj := obj m;
     constraint_power_charge_limit := constraint_power_charge_limit m;
     constraint_power_discharge_limit := constraint_power_discharge_limit m;
     constraint_energy_max := constraint_energy_max m;
     constraint_energy_min := constraint_energy_min m;
     constraint_soc_balance := constraint_soc_balance m;
     constraint_soc_end := constraint_soc_end m |}.

Definition set_obj (m : ConcreteModel) (o : Objective) : ConcreteModel :=
  {| time := time m; bess_energy := bess_energy m; power_ch := power_ch m;
     power_dch := power_dch m; obj := Some o;
     constraint_power_charge_limit := constraint_power_charge_limit m;
     constraint_power_discharge_limit := constraint_power_discharge_limit m;
     constraint_energy_max := constraint_energy_max m;
     constraint_energy_min := constraint_energy_min m;
     constraint_soc_balance := constraint_soc_balance m;
     constraint_soc_end := constraint_soc_end m |}.

Definition set_constraint_power_charge_limit (m : ConcreteModel) (c : Constraint)
  : ConcreteModel :=
  {| time := time m; bess_energy := bess_energy m; power_ch := power_ch m;
     power_dch := power_dch m; obj := obj m;
     constraint_power_charge_limit := c;
     constraint_power_discharge_limit := constraint_power_discharge_limit m;
     constraint_energy_max := constraint_energy_max m;
     constraint_energy_min := constraint_energy_min m;
     constraint_soc_balance := constraint_soc_balance m;
     constraint_soc_end := constraint_soc_end m |}.

Definition set_constraint_power_discharge_limit (m : ConcreteModel) (c : Constraint)
  : ConcreteModel :=
  {| time := time m; bess_energy := bess_energy m; power_ch := power_ch m;
     power_dch := power_dch m; obj := obj m;
     constraint_power_charge_limit := constraint_power_charge_limit m;
     constraint_power_discharge_limit := c;
     constraint_energy_max := constraint_energy_max m;
     constraint_energy_min := constraint_energy_min m;
     constraint_soc_balance := constraint_soc_balance m;
     constraint_soc_end := constraint_soc_end m |}.

Definition set_constraint_energy_max (m : ConcreteModel) (c : Constraint)
  : ConcreteModel :=
  {| time := time m; bess_energy := bess_energy m; power_ch := power_ch m;
     power_dch := power_dch m; obj := obj m;
     constraint_power_charge_limit := constraint_power_charge_limit m;
     constraint_power_discharge_limit := constraint_power_discharge_limit m;
     constraint_energy_max := c;
     constraint_energy_min := constraint_energy_min m;
     constraint_soc_balance := constraint_soc_balance m;
     constraint_soc_end := constraint_soc_end m |}.

Definition set_constraint_energy_min (m : ConcreteModel) (c : Constraint)
  : ConcreteModel :=
  {| time := time m; bess_energy := bess_energy m; power_ch := power_ch m;
     power_dch := power_dch m; obj := obj m;
     constraint_power_charge_limit := constraint_power_charge_limit m;
     constraint_power_discharge_limit := constraint_power_discharge_limit m;
     constraint_energy_max := constraint_energy_max m;
     constraint_energy_min := c;
     constraint_soc_balance := constraint_soc_balance m;
     constraint_soc_end := constraint_soc_end m |}.

Definition set_constraint_soc_balance (m : ConcreteModel) (c : Constraint)
  : ConcreteModel :=
  {| time := time m; bess_energy := bess_energy m; power_ch := power_ch m;
     power_dch := power_dch m; obj := obj m;
     constraint_power_charge_limit := constraint_power_charge_limit m;
     constraint_power_discharge_limit := constraint_power_discharge_limit m;
     constraint_energy_max := constraint_energy_max m;
     constraint_energy_min := constraint_energy_min m;
     constraint_soc_balance := c;
     constraint_soc_end := constraint_soc_end m |}.

Definition set_constraint_soc_end (m : ConcreteModel) (c : Constraint)
  : ConcreteModel :=
  {| time := time m; bess_energy := bess_energy m; power_ch := power_ch m;
     power_dch := power_dch m; obj := obj m;
     constraint_power_charge_limit := constraint_power_charge_limit m;
     constraint_power_discharge_limit := constraint_power_discharge_limit m;
     constraint_energy_max := constraint_energy_max m;
     constraint_energy_min := constraint_energy_min m;
     constraint_soc_balance := constraint_soc_balance m;
     constraint_soc_end := c |}.

(** ** Pyomo components used by the builder *)

(** [opt.RangeSet(a, b)] with unit step: [a, a+1, ..., b]; empty for
    [b = a - 1], the only backward range the builder can ask for. *)
Definition RangeSet (a b : Z) : list Z := seqZ a (b - a + 1).

(** [s.first()] and [s.last()]: there is no such element in an empty set. *)
Definition RangeSet_first (s : list Z) : result Z :=
  match s with
  | [] => Raise IndexError
  | x :: _ => Ok x
  end.

Definition RangeSet_last (s : list Z) : result Z :=
  match List.last (Some <$> s) None with
  | Some x => Ok x
  | None => Raise IndexError
  end.

(** The variable component of a family in the model. *)
Definition component (m : ConcreteModel) (f : family) : Var :=
  match f with
  | Fbess_energy => bess_energy m
  | Fpower_ch => power_ch m
  | Fpower_dch => power_dch m
  end.

(** [m.<family>[t]]: a reference to the variable, [KeyError] when [t] is no
    index of the component. *)
Definition Var_getitem (m : ConcreteModel) (f : family) (t : Z) : result expr :=
  if decide (t ∈ index_set (component m f)) then Ok (VarRef f t)
  else Raise KeyError.

(** [opt.Objective(sense=s, rule=r)] on a concrete model: the rule runs at once. *)
Definition Objective_new (s : Sense) (rule : ConcreteModel → result expr)
    (m : ConcreteModel) : result Objective :=
  e ← rule m; mret {| sense := s; obj_expr := e |}.

(** [opt.Constraint(index, rule=r)]: the rule runs once per index, in order. *)
Definition Constraint_indexed (index : list Z)
    (rule : ConcreteModel → Z → result relational) (m : ConcreteModel)
  : result Constraint :=
  mapM (λ t, c ← rule m t; mret (Some t, c)) index.

(** [opt.Constraint(rule=r)] *)
Definition Constraint_scalar (rule : ConcreteModel → result relational)
    (m : ConcreteModel) : result Constraint :=
  c ← rule m; mret [(None, c)].

(** Python's [sum] over expressions: a left fold of [+] from [0]. *)
Definition py_sum (terms : list expr) : expr := fold_left Add terms (Num 0).

(** ** The builder *)

Section Rules.
(** The names the rule closures of [build_arbitrage_model] capture. *)
Variables (profile : DataFrame) (dt : Q).
Variables (capacity soc_init soc_min soc_max : Q).
Variables (erate_ch erate_dch eff_ch eff_dch : Q).

(** The closure [objective_rule] iterates over [model.time] of the
    enclosing scope, which is the same object as [m]. *)
Definition objective_rule (m : ConcreteModel) : result expr :=
  terms ← mapM (λ t,
    ch ← Var_getitem m Fpower_ch t;
    dch ← Var_getitem m Fpower_dch t;
    p ← price_getitem profile t;
    mret (Mul (Mul (Sub ch dch) (Num dt)) (Num p))) (time m);
  mret (py_sum terms).

Definition power_charge_limit_rule (m : ConcreteModel) (t : Z)
  : result relational :=
  ch ← Var_getitem m Fpower_ch t;
  mret (ELe ch (Num (capacity * erate_ch))).

Definition power_discharge_limit_rule (m : ConcreteModel) (t : Z)
  : result relational :=
  dch ← Var_getitem m Fpower_dch t;
  mret (ELe dch (Num (capacity * erate_dch))).

Definition energy_max_rule (m : ConcreteModel) (t : Z) : result relational :=
  e ← Var_getitem m Fbess_energy t;
  mret (ELe e (Num (capacity * soc_max))).

Definition energy_min_rule (m : ConcreteModel) (t : Z) : result relational :=
  e ← Var_getitem m Fbess_energy t;
  mret (EGe e (Num (capacity * soc_min))).

Definition soc_balance_rule (m : ConcreteModel) (t : Z) : result relational :=
  t0 ← RangeSet_first (time m);
  if decide (t = t0) then
    e ← Var_getitem m Fbess_energy t;
    ch ← Var_getitem m Fpower_ch t;
    dch ← Var_getitem m Fpower_dch t;
    inv ← truediv 1 eff_dch;
    mret (EEq e (Sub (Add (Num (capacity * soc_init))
                          (Mul (Mul ch (Num eff_ch)) (Num dt)))
                     (Mul (Mul dch (Num inv)) (Num dt))))
  else
    e ← Var_getitem m Fbess_energy t;
    e' ← Var_getitem m Fbess_energy (t - 1);
    ch ← Var_getitem m Fpower_ch t;
    dch ← Var_getitem m Fpower_dch t;
    inv ← truediv 1 eff_dch;
    mret (EEq e (Sub (Add e' (Mul (Mul ch (Num eff_ch)) (Num dt)))
                     (Mul (Mul dch (Num inv)) (Num dt)))).

Definition soc_end_rule (m : ConcreteModel) : result relational :=
  tl ← RangeSet_last (time m);
  e ← Var_getitem m Fbess_energy tl;
  mret (EGe e (Num (capacity * soc_init))).
End Rules.

(** The step duration the builder fixes. *)
Definition dt : Q := 1 # 4.

(** The set-up of the time grid at the head of the builder: [n = len(df)],
    [dt = 0.25], [model.time = opt.RangeSet(0, n-1)]. *)
Definition build_time (df : DataFrame) (model : ConcreteModel)
  : result (Z * Q * ConcreteModel) :=
  let n := len df in
  let dt := dt in
  mret (n, dt, set_time model (RangeSet 0 (n - 1))).

Definition build_arbitrage_model (df : DataFrame)
    (storage_params : gmap string Q) (profile : DataFrame)
  : result ConcreteModel :=
  let model := ConcreteModel_new in
  '(n, dt, model) ← build_time df model;
  capacity ← dict_getitem storage_params "capacity";
  soc_init ← dict_getitem storage_params "soc_init";
  soc_min ← dict_getitem storage_params "soc_min";
  soc_max ← dict_getitem storage_params "soc_max";
  erate_ch ← dict_getitem storage_params "erate_ch";
  erate_dch ← dict_getitem storage_params "erate_dch";
  eff_ch ← dict_getitem storage_params "eff_ch";
  eff_dch ← dict_getitem storage_params "eff_dch";
  let model := set_bess_energy model
    {| index_set := time model; domain := NonNegativeReals |} in
  let model := set_power_ch model
    {| index_set := time model; domain := NonNegativeReals |} in
  let model := set_power_dch model
    {| index_set := time model; domain := NonNegativeReals |} in
  o ← Objective_new minimize (objective_rule profile dt) model;
  let model := set_obj model o in
  c ← Constraint_indexed (time model)
        (power_charge_limit_rule capacity erate_ch) model;
  let model := set_constraint_power_charge_limit model c in
  c ← Constraint_indexed (time model)
        (power_discharge_limit_rule capacity erate_dch) model;
  let model := set_constraint_power_discharge_limit model c in
  c ← Constraint_indexed (time model) (energy_max_rule capacity soc_max) model;
  let model := set_constraint_energy_max model c in
  c ← Constraint_indexed (time model) (energy_min_rule capacity soc_min) model;
  let model := set_constraint_energy_min model c in
  c ← Constraint_indexed (time model)
        (soc_balance_rule dt capacity soc_init eff_ch eff_dch) model;
  let model := set_constraint_soc_balance model c in
  c ← Constraint_scalar (soc_end_rule capacity soc_init) model;
  let model := set_constraint_soc_end model c in
  mret model.

(** ** Meaning of a model *)

(** A candidate solution gives every variable a value. *)
Definition valuation := family → Z → Q.

Fixpoint eval (ρ : valuation) (e : expr) : Q :=
  match e with
  | Num q => q
  | VarRef f t => ρ f t
  | Add a b => eval ρ a + eval ρ b
  | Sub a b => eval ρ a - eval ρ b
  | Mul a b => eval ρ a * eval ρ b
  end.

Definition holdsb (ρ : valuation) (r : relational) : bool :=
  match r with
  | ELe a b => Qle_bool (eval ρ a) (eval ρ b)
  | EGe a b => Qle_bool (eval ρ b) (eval ρ a)
  | EEq a b => Qeq_bool (eval ρ a) (eval ρ b)
  end.

Definition in_domainb (d : Domain) (q : Q) : bool :=
  match d with
  | Reals => true
  | NonNegativeReals => Qle_bool 0 q
  end.

Definition var_okb (ρ : valuation) (f : family) (v : Var) : bool :=
  forallb (λ t, in_domainb (domain v) (ρ f t)) (index_set v).

Definition constraint_okb (ρ : valuation) (c : Constraint) : bool :=
  forallb (λ ic, holdsb ρ ic.2) c.

(** The feasible region of the LP: every variable in its domain and every
    constraint of every component satisfied. *)
Definition feasibleb (m : ConcreteModel) (ρ : valuation) : bool :=
  var_okb ρ Fbess_energy (bess_energy m)
  && var_okb ρ Fpower_ch (power_ch m)
  && var_okb ρ Fpower_dch (power_dch m)
  && constraint_okb ρ (constraint_power_charge_limit m)
  && constraint_okb ρ (constraint_power_discharge_limit m)
  && constraint_okb ρ (constraint_energy_max m)
  && constraint_okb ρ (constraint_energy_min m)
  && constraint_okb ρ (constraint_soc_balance m)
  && constraint_okb ρ (constraint_soc_end m).

Definition feasible (m : ConcreteModel) (ρ : valuation) : Prop :=
  feasibleb m ρ = true.

(** ** The solve step and the read-back cell *)

Inductive TerminationCondition := optimal | infeasible | unbounded.

(** What the external solver leaves behind: its verdict, and the values it
    loaded into the variables ([None] for a variable it left without one). *)
Record Solution := {
  termination_condition : TerminationCondition;
  var_value : family → Z → option Q
}.

(** [opt.value(e)]: [ValueError] on a variable without a value. *)
Fixpoint value (sol : Solution) (e : expr) : result Q :=
  match e with
  | Num q => Ok q
  | VarRef f t =>
      match var_value sol f t with
      | Some q => Ok q
      | None => Raise ValueError
      end
  | Add a b => x ← value sol a; y ← value sol b; mret (x + y)
  | Sub a b => x ← value sol a; y ← value sol b; mret (x - y)
  | Mul a b => x ← value sol a; y ← value sol b; mret (x * y)
  end.

(** The frame after the cell ran: the input rows and the two new columns.
    On an input frame without rows the columns alone make the frame:
    pandas numbers its rows from 0 and leaves their price cells empty. *)
Record Results := { frame : DataFrame; power : list Q; soc : list Q }.

(** [df.index] of the frame after the cell ran: the timestamps of the
    input rows, or the row numbers when the input frame had no rows. *)
Definition Results_index (df : Results) : list Z :=
  match frame df with
  | [] => seqZ 0 (Z.of_nat (length (power df)))
  | rows => timestamp <$> rows
  end.


(** [df[name] = values] on a frame of [rows] rows, giving the number of
    rows of the frame afterwards.  pandas refuses a list of the wrong
    length, except on a frame without rows, which takes its index from the
    list. *)
Definition column_assign (rows : nat) (values : list Q) : result nat :=
  if decide (rows = 0%nat) then Ok (length values)
  else if decide (length values = rows) then Ok rows
  else Raise ValueError.

(** The cell "write results in dataframe". *)
Definition write_results (storage : gmap string Q) (model : ConcreteModel)
    (sol : Solution) (df : DataFrame) : result Results :=
  capacity ← dict_getitem storage "capacity";
  ps ← mapM (λ t,
    ch ← Var_getitem model Fpower_ch t;
    a ← value sol ch;
    dch ← Var_getitem model Fpower_dch t;
    b ← value sol dch;
    mret (a - b)) (time model);
  rows ← column_assign (length df) ps;
  ss ← mapM (λ t,
    e ← Var_getitem model Fbess_energy t;
    x ← value sol e;
    truediv x capacity) (time model);
  rows ← column_assign rows ss;
  mret {| frame := df; power := ps; soc := ss |}.

(** ** The notebook's data *)

Definition storage : gmap string Q :=
  list_to_map
    [("capacity"%string, 1); ("soc_init"%string, 1 # 2);
     ("soc_min"%string, 1 # 10); ("soc_max"%string, 9 # 10);
     ("erate_ch"%string, 1); ("erate_dch"%string, 1);
     ("eff_ch"%string, 19 # 20); ("eff_dch"%string, 19 # 20)].

(** Four quarter-hour rows with prices 10, 50, 10, 50. *)
Definition df4 : DataFrame :=
  [ {| timestamp := 0; price := 10 |}; {| timestamp := 900; price := 50 |};
    {| timestamp := 1800; price := 10 |}; {| timestamp := 2700; price := 50 |} ].

(** ** The parameter set as the builder reads it *)

Record StorageSpec := {
  capacity : Q; soc_init : Q; soc_min : Q; soc_max : Q;
  erate_ch : Q; erate_dch : Q; eff_ch : Q; eff_dch : Q
}.

(** The eight keys the builder looks up, in its order. *)
Definition spec_of (d : gmap string Q) : option StorageSpec :=
  c ← d !! "capacity"%string;
  si ← d !! "soc_init"%string;
  smin ← d !! "soc_min"%string;
  smax ← d !! "soc_max"%string;
  rc ← d !! "erate_ch"%string;
  rd ← d !! "erate_dch"%string;
  ec ← d !! "eff_ch"%string;
  ed ← d !! "eff_dch"%string;
  mret {| capacity := c; soc_init := si; soc_min := smin; soc_max := smax;
          erate_ch := rc; erate_dch := rd; eff_ch := ec; eff_dch := ed |}.

(** ** Closed form of the built model *)

Definition price_at (profile : DataFrame) (t : Z) : Q :=
  default 0 (price <$> profile !! Z.to_nat t).

Definition objective_term (profile : DataFrame) (t : Z) : expr :=
  Mul (Mul (Sub (VarRef Fpower_ch t) (VarRef Fpower_dch t)) (Num dt))
      (Num (price_at profile t)).

Section ClosedForm.
Variable s : StorageSpec.

Definition charge_limit_at (t : Z) : relational :=
  ELe (VarRef Fpower_ch t) (Num (capacity s * erate_ch s)).

Definition discharge_limit_at (t : Z) : relational :=
  ELe (VarRef Fpower_dch t) (Num (capacity s * erate_dch s)).

Definition energy_max_at (t : Z) : relational :=
  ELe (VarRef Fbess_energy t) (Num (capacity s * soc_max s)).

Definition energy_min_at (t : Z) : relational :=
  EGe (VarRef Fbess_energy t) (Num (capacity s * soc_min s)).

Definition soc_balance_at (t0 t : Z) : relational :=
  EEq (VarRef Fbess_energy t)
    (Sub (Add (if decide (t = t0) then Num (capacity s * soc_init s)
               else VarRef Fbess_energy (t - 1))
              (Mul (Mul (VarRef Fpower_ch t) (Num (eff_ch s))) (Num dt)))
         (Mul (Mul (VarRef Fpower_dch t) (Num (1 / eff_dch s))) (Num dt))).

Definition soc_end_at (t : Z) : relational :=
  EGe (VarRef Fbess_energy t) (Num (capacity s * soc_init s)).

Definition indexed (rule : Z → relational) (index : list Z) : Constraint :=
  (λ t, (Some t, rule t)) <$> index.

Definition closed_model (profile : DataFrame) (n : Z) : ConcreteModel :=
  let grid := seqZ 0 n in
  let v := {| index_set := grid; domain := NonNegativeReals |} in
  {| time := grid; bess_energy := v; power_ch := v; power_dch := v;
     obj := Some {| sense := minimize;
                    obj_expr := py_sum (objective_term profile <$> grid) |};
     constraint_power_charge_limit := indexed charge_limit_at grid;
     constraint_power_discharge_limit := indexed discharge_limit_at grid;
     constraint_energy_max := indexed energy_max_at grid;
     constraint_energy_min := indexed energy_min_at grid;
     constraint_soc_balance := indexed (soc_balance_at 0%Z) grid;
     constraint_soc_end := [(None, soc_end_at (n - 1))] |}.
End ClosedForm.

(** ** Closed form of the read-back *)

Definition val (sol : Solution) (f : family) (t : Z) : Q :=
  default 0 (var_value sol f t).

(** Which variables of timestep [t] have a value. *)
Definition has_power (sol : Solution) (t : Z) : bool :=
  bool_decide (is_Some (var_value sol Fpower_ch t))
  && bool_decide (is_Some (var_value sol Fpower_dch t)).

Definition has_energy (sol : Solution) (t : Z) : bool :=
  bool_decide (is_Some (var_value sol Fbess_energy t)).

Definition has_values (sol : Solution) (t : Z) : bool :=
  has_power sol t && has_energy sol t.

(** No variable of timestep [t] has a value. *)
Definition no_values (sol : Solution) (t : Z) : bool :=
  negb (bool_decide (is_Some (var_value sol Fpower_ch t)))
  && negb (bool_decide (is_Some (var_value sol Fpower_dch t)))
  && negb (bool_decide (is_Some (var_value sol Fbess_energy t))).

(** Modelled from the spec: the solver boundary of its section on external
    interfaces.  The solver is external; what it hands back is either an
    optimal assignment of a value to every decision variable, or an
    infeasible or unbounded status, and then no values. *)
Definition solver_boundary (m : ConcreteModel) (sol : Solution) : bool :=
  match termination_condition sol with
  | optimal => forallb (has_values sol) (time m)
  | infeasible | unbounded => forallb (no_values sol) (time m)
  end.

Definition net_power (sol : Solution) (t : Z) : Q :=
  val sol Fpower_ch t - val sol Fpower_dch t.

Definition soc_of (sol : Solution) (cap : Q) (t : Z) : Q :=
  val sol Fbess_energy t / cap.

(** ** The statements of the specification, in its words *)

Definition Qsum (l : list Q) : Q := foldr Qplus 0 l.

(** SOC balance at timestep [t] of a grid whose first index is [t0]. *)
Definition soc_balance_equation (s : StorageSpec) (t0 : Z) (ρ : valuation)
    (t : Z) : Prop :=
  if decide (t = t0) then
    ρ Fbess_energy t
    == capacity s * soc_init s + ρ Fpower_ch t * eff_ch s * dt
       - ρ Fpower_dch t * (1 / eff_dch s) * dt
  else
    ρ Fbess_energy t
    == ρ Fbess_energy (t - 1)%Z + ρ Fpower_ch t * eff_ch s * dt
       - ρ Fpower_dch t * (1 / eff_dch s) * dt.

(** Net energy purchased, valued at the price of each row: the sum of
    [(power_ch[t] - power_dch[t]) * dt * price[t]] over the rows of the
    profile, the first row being timestep [t]. *)
Fixpoint net_cost_from (ρ : valuation) (t : Z) (profile : DataFrame) : Q :=
  match profile with
  | [] => 0
  | r :: rest =>
      (ρ Fpower_ch t - ρ Fpower_dch t) * dt * price r
      + net_cost_from ρ (t + 1)%Z rest
  end.

Definition net_purchase_cost (ρ : valuation) (profile : DataFrame) : Q :=
  net_cost_from ρ 0 profile.

(** The box of timestep [t]. *)
Definition in_box (s : StorageSpec) (ρ : valuation) (t : Z) : Prop :=
  (0 <= ρ Fpower_ch t <= capacity s * erate_ch s)
  ∧ (0 <= ρ Fpower_dch t <= capacity s * erate_dch s)
  ∧ (0 <= ρ Fbess_energy t)
  ∧ (capacity s * soc_min s <= ρ Fbess_energy t <= capacity s * soc_max s).

(** The part of feasibility that comes from the variable domains and the
    four bound components. *)
Definition boundsb (m : ConcreteModel) (ρ : valuation) : bool :=
  var_okb ρ Fbess_energy (bess_energy m)
  && var_okb ρ Fpower_ch (power_ch m)
  && var_okb ρ Fpower_dch (power_dch m)
  && constraint_okb ρ (constraint_power_charge_limit m)
  && constraint_okb ρ (constraint_power_discharge_limit m)
  && constraint_okb ρ (constraint_energy_max m)
  && constraint_okb ρ (constraint_energy_min m).

(** A StorageSpec as the data model wants it: efficiencies in (0, 1],
    SOC bounds ordered and in [0, 1]. *)
Definition valid_StorageSpec (s : StorageSpec) : bool :=
  negb (Qle_bool (eff_ch s) 0) && Qle_bool (eff_ch s) 1
  && negb (Qle_bool (eff_dch s) 0) && Qle_bool (eff_dch s) 1
  && Qle_bool 0 (soc_min s) && Qle_bool (soc_min s) (soc_max s)
  && Qle_bool (soc_max s) 1.

(** ** Concrete inputs *)

Definition spec4 : StorageSpec :=
  {| capacity := 1; soc_init := 1 # 2; soc_min := 1 # 10; soc_max := 9 # 10;
     erate_ch := 1; erate_dch := 1; eff_ch := 19 # 20; eff_dch := 19 # 20 |}.

(** The model the notebook's data gives. *)
Definition model4 : ConcreteModel := closed_model spec4 df4 4.

(** The first two rows of [df4]. *)
Definition df2 : DataFrame :=
  [ {| timestamp := 0; price := 10 |}; {| timestamp := 900; price := 50 |} ].

(** The notebook's parameters with the SOC bounds swapped and a negative
    charge efficiency. *)
Definition storage_inverted : gmap string Q :=
  <["soc_min"%string := 9 # 10]>
    (<["soc_max"%string := 1 # 10]>
       (<["eff_ch"%string := - (1)]> storage)).

Definition spec_inverted : StorageSpec :=
  {| capacity := 1; soc_init := 1 # 2; soc_min := 9 # 10; soc_max := 1 # 10;
     erate_ch := 1; erate_dch := 1; eff_ch := - (1); eff_dch := 19 # 20 |}.

(** The notebook's parameters with no capacity. *)
Definition storage_zero : gmap string Q := <["capacity"%string := 0]> storage.

Definition spec_zero : StorageSpec :=
  {| capacity := 0; soc_init := 1 # 2; soc_min := 1 # 10; soc_max := 9 # 10;
     erate_ch := 1; erate_dch := 1; eff_ch := 19 # 20; eff_dch := 19 # 20 |}.

(** A valuation that charges at full power in timestep 2 and does nothing
    else. *)
Definition charge_late : valuation :=
  λ f t, if decide (f = Fpower_ch ∧ t = 2%Z) then 1 else 0.

(** A valuation that keeps the battery idle at its initial energy. *)
Definition idle : valuation :=
  λ f _, match f with Fbess_energy => 1 # 2 | _ => 0 end.

(** An optimal solve with the same values. *)
Definition sol_idle : Solution :=
  {| termination_condition := optimal;
     var_value := λ f t, Some (idle f t) |}.

(** A solve that loaded no value at all. *)
Definition sol_absent : Solution :=
  {| termination_condition := infeasible; var_value := λ _ _, None |}.

(** ** Shape of the expressions of a model *)

(** The variables an expression mentions. *)
Fixpoint refs (e : expr) : list (family * Z) :=
  match e with
  | Num _ => []
  | VarRef f t => [(f, t)]
  | Add a b | Sub a b | Mul a b => refs a ++ refs b
  end.

Definition sides (r : relational) : expr * expr :=
  match r with
  | ELe a b | EGe a b | EEq a b => (a, b)
  end.

(** A variable the model declares: its index is in the index set of its
    component. *)
Definition declared (m : ConcreteModel) (x : family * Z) : Prop :=
  x.2 ∈ index_set (component m x.1).

(** An expression without variables. *)
Fixpoint constant (e : expr) : bool :=
  match e with
  | Num _ => true
  | VarRef _ _ => false
  | Add a b | Sub a b | Mul a b => constant a && constant b
  end.

(** An expression of degree at most one: a product has a constant factor. *)
Fixpoint linear (e : expr) : bool :=
  match e with
  | Num _ | VarRef _ _ => true
  | Add a b | Sub a b => linear a && linear b
  | Mul a b => (linear a && constant b) || (constant a && linear b)
  end.

(** All constraints of a model, component after component, in the order
    the builder attaches them. *)
Definition all_constraints (m : ConcreteModel) : Constraint :=
  constraint_power_charge_limit m ++ constraint_power_discharge_limit m
  ++ constraint_energy_max m ++ constraint_energy_min m
  ++ constraint_soc_balance m ++ constraint_soc_end m.

(** ** Schedules *)

(** Energy added to the store in timestep [t]. *)
Definition step_gain (s : StorageSpec) (ρ : valuation) (t : Z) : Q :=
  ρ Fpower_ch t * eff_ch s * dt - ρ Fpower_dch t * (1 / eff_dch s) * dt.

(** Energy added over the first [n] timesteps. *)
Definition gain (s : StorageSpec) (ρ : valuation) (n : Z) : Q :=
  Qsum (step_gain s ρ <$> seqZ 0 n).

(** The schedule that never charges nor discharges. *)
Definition idle_at (s : StorageSpec) : valuation :=
  λ f _, match f with
         | Fbess_energy => capacity s * soc_init s
         | Fpower_ch | Fpower_dch => 0
         end.

(** The eight keys of the parameter dictionary. *)
Definition storage_keys : list string :=
  ["capacity"; "soc_init"; "soc_min"; "soc_max";
   "erate_ch"; "erate_dch"; "eff_ch"; "eff_dch"]%string.

(** Four rows at the one price 30. *)
Definition df_flat : DataFrame :=
  [ {| timestamp := 0; price := 30 |}; {| timestamp := 900; price := 30 |};
    {| timestamp := 1800; price := 30 |}; {| timestamp := 2700; price := 30 |} ].

(** ** The plot of the results *)








(** ** Lecture 3: power gradients of the wind and solar profiles *)

(** The cells of a profile column are binary64 numbers, as pandas holds
    them; the primitive floats compute on them as the processor does,
    rounding, infinities and not-a-number included. *)

(** [column.diff()]: the first cell has no predecessor. *)
Fixpoint diff_from (prev : float) (l : list float) : list float :=
  match l with
  | [] => []
  | x :: rest => (x - prev)%float :: diff_from x rest
  end.

Definition diff (l : list float) : list float :=
  match l with
  | [] => []
  | x :: rest => nan :: diff_from x rest
  end.

(** The larger of two numbers; of two that compare equal, the zeros of
    either sign among them, the first. *)
Definition fmax (a b : float) : float := if (a <? b)%float then b else a.

(** [column.max()]: cells that are not a number are skipped; not a number
    when no cell is left. *)
Definition col_max (l : list float) : float :=
  match List.filter (λ x, negb (is_nan x)) l with
  | [] => nan
  | x :: rest => foldl fmax x rest
  end.

(** [df_wind_ramp = df_wind.diff()], then
    [df_wind_ramp = df_wind_ramp * 10 / df_wind.max()]. *)
Definition df_wind_ramp (df_wind : list float) : list float :=
  let df_wind_ramp := diff df_wind in
  (λ v, (v * 10 / col_max df_wind)%float) <$> df_wind_ramp.

(** [df_solar_ramp = df_solar.diff()], then
    [df_solar_ramp = df_solar_ramp / df_solar.max()]. *)
Definition df_solar_ramp (df_solar : list float) : list float :=
  let df_solar_ramp := diff df_solar in
  (λ v, (v / col_max df_solar)%float) <$> df_solar_ramp.

(** A zero of either sign. *)
Definition is_zero (x : float) : Prop := x = 0%float ∨ x = (-0)%float.

(** ** The error monad: inversion and iteration *)

Lemma Ok_bind {A B} (a : A) (f : A → result B) : Ok a ≫= f = f a.
Proof. reflexivity. Qed.

Lemma Raise_bind {A B} (e : exn) (f : A → result B) : Raise e ≫= f = Raise e.
Proof. reflexivity. Qed.

Lemma mapM_cons {A B} (f : A → result B) (x : A) (l : list A) :
  mapM f (x :: l) = y ← f x; k ← mapM f l; mret (y :: k).
Proof. reflexivity. Qed.

(** A loop whose body either returns [g x] or raises the one exception [e]
    returns the mapped list when no element fails, and raises [e] otherwise. *)
Lemma mapM_uniform {A B} (f : A → result B) (g : A → B) (p : A → bool)
    (e : exn) (l : list A) :
  (∀ x, x ∈ l → f x = if p x then Ok (g x) else Raise e) →
  mapM f l = if forallb p l then Ok (g <$> l) else Raise e.
Proof.
  induction l as [|x l IH]; intros Hf; [reflexivity|].
  rewrite mapM_cons, (Hf x) by constructor.
  simpl forallb. destruct (p x); simpl; [|reflexivity].
  rewrite IH by (intros y Hy; apply Hf; by constructor).
  by destruct (forallb p l).
Qed.

Lemma mapM_total {A B} (f : A → result B) (g : A → B) (l : list A) :
  (∀ x, x ∈ l → f x = Ok (g x)) → mapM f l = Ok (g <$> l).
Proof.
  intros Hf. rewrite (mapM_uniform f g (λ _, true) KeyError).
  - by rewrite (proj2 (forallb_forall _ _)).
  - intros x Hx. by apply Hf.
Qed.

Lemma forallb_const {A} (b : bool) (l : list A) :
  forallb (λ _, b) l = match l with [] => true | _ => b end.
Proof.
  destruct l as [|x l]; [reflexivity|]. simpl. destruct b; simpl; [|reflexivity].
  induction l; simpl; auto.
Qed.

(** ** The time grid *)

Lemma RangeSet_grid (n : Z) : RangeSet 0 (n - 1) = seqZ 0 n.
Proof. unfold RangeSet. f_equal. lia. Qed.

Lemma elem_of_grid (n t : Z) : t ∈ seqZ 0 n ↔ (0 ≤ t < n)%Z.
Proof. rewrite elem_of_seqZ. lia. Qed.

Lemma grid_nil (n : Z) : seqZ 0 n = [] ↔ (n ≤ 0)%Z.
Proof.
  split; intros H.
  - apply (f_equal length) in H. rewrite length_seqZ in H. simpl in H. lia.
  - by apply seqZ_nil.
Qed.

Lemma RangeSet_first_grid (n : Z) :
  RangeSet_first (seqZ 0 n) = if decide (n ≤ 0)%Z then Raise IndexError else Ok 0%Z.
Proof.
  case_decide as Hn.
  - by rewrite (proj2 (grid_nil n) Hn).
  - rewrite (seqZ_cons 0 n) by lia. reflexivity.
Qed.

Lemma RangeSet_last_grid (n : Z) :
  RangeSet_last (seqZ 0 n)
  = if decide (n ≤ 0)%Z then Raise IndexError else Ok (n - 1)%Z.
Proof.
  unfold RangeSet_last. case_decide as Hn.
  - by rewrite (proj2 (grid_nil n) Hn).
  - replace n with ((n - 1) + 1)%Z at 1 by lia.
    rewrite seqZ_app by lia. rewrite fmap_app.
    rewrite (seqZ_cons _ 1), (seqZ_nil _ (Z.pred 1)) by lia.
    cbn [fmap list_fmap]. rewrite last_last. reflexivity.
Qed.

(** ** The rules on a model whose variables are indexed by the grid *)

Section RulesOnGrid.
Variables (m : ConcreteModel) (n : Z).
Hypothesis Htime : time m = seqZ 0 n.
Hypothesis Hindex : ∀ f, index_set (component m f) = seqZ 0 n.

Lemma Var_getitem_grid (f : family) (t : Z) :
  (0 ≤ t < n)%Z → Var_getitem m f t = Ok (VarRef f t).
Proof.
  intros Ht. unfold Var_getitem. rewrite Hindex.
  rewrite decide_True; [reflexivity|]. by apply elem_of_grid.
Qed.

Lemma Var_getitem_outside (f : family) (t : Z) :
  ¬ (0 ≤ t < n)%Z → Var_getitem m f t = Raise KeyError.
Proof.
  intros Ht. unfold Var_getitem. rewrite Hindex.
  rewrite decide_False; [reflexivity|]. by rewrite elem_of_grid.
Qed.

Lemma price_getitem_grid (profile : DataFrame) (t : Z) :
  (0 ≤ t)%Z →
  price_getitem profile t
  = if (t <? len profile)%Z then Ok (price_at profile t) else Raise IndexError.
Proof.
  intros Ht. unfold price_getitem, price_at, len.
  destruct (profile !! Z.to_nat t) as [r|] eqn:E.
  - apply lookup_lt_Some in E.
    rewrite (proj2 (Z.ltb_lt _ _)) by lia. reflexivity.
  - apply lookup_ge_None in E.
    rewrite (proj2 (Z.ltb_ge _ _)) by lia. reflexivity.
Qed.

Lemma forallb_below_grid (k : Z) :
  (0 ≤ k)%Z → forallb (λ t, (t <? k)%Z) (seqZ 0 n) = negb (k <? n)%Z.
Proof.
  intros Hk. destruct (k <? n)%Z eqn:E; simpl.
  - apply Z.ltb_lt in E. apply not_true_is_false. intros H.
    rewrite forallb_forall in H. specialize (H k).
    rewrite Z.ltb_irrefl in H. rewrite <- list_elem_of_In, elem_of_grid in H.
    assert (false = true) by (apply H; lia). discriminate.
  - apply Z.ltb_ge in E. apply forallb_forall. intros t Ht.
    rewrite <- list_elem_of_In, elem_of_grid in Ht. apply Z.ltb_lt. lia.
Qed.

Lemma objective_rule_grid (profile : DataFrame) (d : Q) :
  objective_rule profile d m
  = if (len profile <? n)%Z then Raise IndexError
    else Ok (py_sum ((λ t, Mul (Mul (Sub (VarRef Fpower_ch t)
                                         (VarRef Fpower_dch t)) (Num d))
                               (Num (price_at profile t))) <$> seqZ 0 n)).
Proof.
  unfold objective_rule. rewrite Htime.
  erewrite (mapM_uniform _ _ (λ t, (t <? len profile)%Z) IndexError).
  - rewrite forallb_below_grid by (unfold len; lia).
    destruct (len profile <? n)%Z; reflexivity.
  - intros t Ht. apply elem_of_grid in Ht.
    rewrite !Var_getitem_grid by done. simpl.
    rewrite price_getitem_grid by lia.
    destruct (t <? len profile)%Z; reflexivity.
Qed.
Variable s : StorageSpec.

(** A bound rule looks up one variable at its own index and cannot fail. *)
Ltac bound_rule_on_grid rule :=
  apply mapM_total; intros t Ht; apply elem_of_grid in Ht;
  unfold rule; by rewrite Var_getitem_grid.

Lemma charge_limit_grid :
  Constraint_indexed (seqZ 0 n)
    (power_charge_limit_rule (capacity s) (erate_ch s)) m
  = Ok (indexed (charge_limit_at s) (seqZ 0 n)).
Proof. bound_rule_on_grid power_charge_limit_rule. Qed.

Lemma discharge_limit_grid :
  Constraint_indexed (seqZ 0 n)
    (power_discharge_limit_rule (capacity s) (erate_dch s)) m
  = Ok (indexed (discharge_limit_at s) (seqZ 0 n)).
Proof. bound_rule_on_grid power_discharge_limit_rule. Qed.

Lemma energy_max_grid :
  Constraint_indexed (seqZ 0 n) (energy_max_rule (capacity s) (soc_max s)) m
  = Ok (indexed (energy_max_at s) (seqZ 0 n)).
Proof. bound_rule_on_grid energy_max_rule. Qed.

Lemma energy_min_grid :
  Constraint_indexed (seqZ 0 n) (energy_min_rule (capacity s) (soc_min s)) m
  = Ok (indexed (energy_min_at s) (seqZ 0 n)).
Proof. bound_rule_on_grid energy_min_rule. Qed.

(** One call of the balance rule: the previous index [t - 1] it asks for
    in the second branch is always an index of the energy variable. *)
Lemma soc_balance_rule_grid (t : Z) :
  (0 ≤ t < n)%Z →
  soc_balance_rule dt (capacity s) (soc_init s) (eff_ch s) (eff_dch s) m t
  = if negb (Qeq_bool (eff_dch s) 0) then Ok (soc_balance_at s 0%Z t)
    else Raise ZeroDivisionError.
Proof.
  intros Ht. unfold soc_balance_rule, soc_balance_at, truediv.
  rewrite Htime, RangeSet_first_grid, decide_False by lia. simpl.
  destruct (decide (t = 0%Z)) as [->|Hne].
  - rewrite !Var_getitem_grid by lia. simpl.
    by destruct (Qeq_bool (eff_dch s) 0).
  - rewrite !Var_getitem_grid by lia. simpl.
    by destruct (Qeq_bool (eff_dch s) 0).
Qed.

Lemma soc_balance_grid :
  Constraint_indexed (seqZ 0 n)
    (soc_balance_rule dt (capacity s) (soc_init s) (eff_ch s) (eff_dch s)) m
  = if decide (n ≤ 0)%Z then Ok []
    else if Qeq_bool (eff_dch s) 0 then Raise ZeroDivisionError
    else Ok (indexed (soc_balance_at s 0%Z) (seqZ 0 n)).
Proof.
  unfold Constraint_indexed.
  erewrite (mapM_uniform _ (λ t, (Some t, soc_balance_at s 0%Z t))
              (λ _, negb (Qeq_bool (eff_dch s) 0)) ZeroDivisionError).
  - rewrite forallb_const. case_decide as Hn.
    + by rewrite (proj2 (grid_nil n) Hn).
    + rewrite (seqZ_cons 0 n) by lia.
      by destruct (Qeq_bool (eff_dch s) 0).
  - intros t Ht. apply elem_of_grid in Ht.
    rewrite soc_balance_rule_grid by done.
    by destruct (Qeq_bool (eff_dch s) 0).
Qed.

Lemma soc_end_grid :
  Constraint_scalar (soc_end_rule (capacity s) (soc_init s)) m
  = if decide (n ≤ 0)%Z then Raise IndexError
    else Ok [(None, soc_end_at s (n - 1))].
Proof.
  unfold Constraint_scalar, soc_end_rule.
  rewrite Htime, RangeSet_last_grid. case_decide as Hn; [reflexivity|].
  simpl. rewrite Var_getitem_grid by lia. reflexivity.
Qed.
End RulesOnGrid.

(** ** What the builder returns *)

(** The builder, as one case analysis on its inputs: the exception it
    raises, in the order the source reaches them, or the closed form of
    the model it returns. *)
Lemma build_arbitrage_model_eq (df : DataFrame) (d : gmap string Q)
    (profile : DataFrame) :
  build_arbitrage_model df d profile
  = match spec_of d with
    | None => Raise KeyError
    | Some s =>
        if (len profile <? len df)%Z then Raise IndexError
        else if decide (len df ≤ 0)%Z then Raise IndexError
        else if Qeq_bool (eff_dch s) 0 then Raise ZeroDivisionError
        else Ok (closed_model s profile (len df))
    end.
Proof.
  unfold build_arbitrage_model, build_time, spec_of, dict_getitem.
  cbn [mbind mret result_bind result_ret option_bind option_ret].
  rewrite RangeSet_grid.
  destruct (d !! "capacity"%string) as [c|]; [|reflexivity].
  destruct (d !! "soc_init"%string) as [si|]; [|reflexivity].
  destruct (d !! "soc_min"%string) as [smin|]; [|reflexivity].
  destruct (d !! "soc_max"%string) as [smax|]; [|reflexivity].
  destruct (d !! "erate_ch"%string) as [rc|]; [|reflexivity].
  destruct (d !! "erate_dch"%string) as [rd|]; [|reflexivity].
  destruct (d !! "eff_ch"%string) as [ec|]; [|reflexivity].
  destruct (d !! "eff_dch"%string) as [ed|]; [|reflexivity].
  cbn [mbind mret result_bind result_ret option_bind option_ret].
  set (s := {| capacity := c; soc_init := si; soc_min := smin; soc_max := smax;
               erate_ch := rc; erate_dch := rd; eff_ch := ec; eff_dch := ed |}).
  unfold Objective_new.
  rewrite (objective_rule_grid _ (len df)) by (reflexivity || by intros []).
  destruct (len profile <? len df)%Z; [reflexivity|].
  cbn [mbind mret result_bind result_ret time set_obj set_power_dch
         set_power_ch set_bess_energy set_time].
  rewrite (charge_limit_grid _ (len df)) with (s := s) by (by intros []).
  cbn [mbind mret result_bind result_ret time
         set_constraint_power_charge_limit].
  rewrite (discharge_limit_grid _ (len df)) with (s := s) by (by intros []).
  cbn [mbind mret result_bind result_ret time
         set_constraint_power_discharge_limit].
  rewrite (energy_max_grid _ (len df)) with (s := s) by (by intros []).
  cbn [mbind mret result_bind result_ret time set_constraint_energy_max].
  rewrite (energy_min_grid _ (len df)) with (s := s) by (by intros []).
  cbn [mbind mret result_bind result_ret time set_constraint_energy_min].
  rewrite (soc_balance_grid _ (len df)) with (s := s) by (reflexivity || by intros []).
  destruct (decide (len df ≤ 0)%Z) as [Hn|Hn].
  - rewrite Ok_bind, (soc_end_grid _ (len df)) with (s := s)
      by (reflexivity || by intros []).
    rewrite decide_True by assumption. reflexivity.
  - destruct (Qeq_bool (eff_dch s) 0) eqn:E; [reflexivity|].
    rewrite Ok_bind, (soc_end_grid _ (len df)) with (s := s)
      by (reflexivity || by intros []).
    rewrite decide_False by assumption. reflexivity.
Qed.

Lemma build_arbitrage_model_Ok (df : DataFrame) (d : gmap string Q)
    (profile : DataFrame) (m : ConcreteModel) :
  build_arbitrage_model df d profile = Ok m ↔
  ∃ s, spec_of d = Some s ∧ (1 ≤ len df ≤ len profile)%Z
       ∧ Qeq_bool (eff_dch s) 0 = false
       ∧ m = closed_model s profile (len df).
Proof.
  rewrite build_arbitrage_model_eq. split.
  - destruct (spec_of d) as [s|]; [|discriminate].
    destruct (len profile <? len df)%Z eqn:E1; [discriminate|].
    destruct (decide (len df ≤ 0)%Z) as [E2|E2]; [discriminate|].
    destruct (Qeq_bool (eff_dch s) 0) eqn:E3; [discriminate|].
    intros [= <-]. exists s. apply Z.ltb_ge in E1. repeat split; auto; lia.
  - intros (s & -> & [H1 H2] & -> & ->).
    rewrite (proj2 (Z.ltb_ge _ _)) by lia.
    rewrite decide_False by lia. reflexivity.
Qed.

(** A model the builder returned is the closed form of its parameter set. *)
Ltac built_from Hb Hs :=
  let s' := fresh "s" in
  let Hs' := fresh "Hs" in
  apply build_arbitrage_model_Ok in Hb as (s' & Hs' & Hn & _ & ->);
  rewrite Hs in Hs'; injection Hs' as <-.

(** ** Meaning of the components of the built model *)

Lemma constraint_okb_indexed (ρ : valuation) (rule : Z → relational)
    (l : list Z) :
  constraint_okb ρ (indexed rule l) = forallb (λ t, holdsb ρ (rule t)) l.
Proof.
  unfold constraint_okb, indexed. induction l as [|t l IH]; [reflexivity|].
  simpl. by rewrite <- IH.
Qed.

Lemma forallb_elem_of {A} (p : A → bool) (l : list A) :
  forallb p l = true ↔ ∀ x, x ∈ l → p x = true.
Proof.
  rewrite forallb_forall. split; intros H x Hx; apply H.
  - by apply list_elem_of_In.
  - by apply list_elem_of_In.
Qed.

Lemma indexed_fst (rule : Z → relational) (l : list Z) :
  (indexed rule l).*1 = Some <$> l.
Proof. unfold indexed. rewrite <- list_fmap_compose. reflexivity. Qed.

Lemma elem_of_indexed (rule : Z → relational) (l : list Z) (t : Z)
    (r : relational) :
  (Some t, r) ∈ indexed rule l ↔ t ∈ l ∧ r = rule t.
Proof.
  unfold indexed. rewrite list_elem_of_fmap. split.
  - intros (t' & [= -> ->] & Ht). auto.
  - intros [Ht ->]. eauto.
Qed.

Lemma holdsb_soc_balance_at (s : StorageSpec) (t0 t : Z) (ρ : valuation) :
  holdsb ρ (soc_balance_at s t0 t) = true ↔ soc_balance_equation s t0 ρ t.
Proof.
  unfold soc_balance_at, soc_balance_equation, holdsb.
  rewrite Qeq_bool_iff. by destruct (decide (t = t0)).
Qed.

Lemma feasible_closed_model (s : StorageSpec) (profile : DataFrame) (n : Z)
    (ρ : valuation) :
  feasible (closed_model s profile n) ρ ↔
  boundsb (closed_model s profile n) ρ = true
  ∧ (∀ t, (0 ≤ t < n)%Z → holdsb ρ (soc_balance_at s 0 t) = true)
  ∧ holdsb ρ (soc_end_at s (n - 1)) = true.
Proof.
  unfold feasible, feasibleb, boundsb.
  rewrite !andb_true_iff. cbn [closed_model constraint_soc_balance
    constraint_soc_end]. rewrite constraint_okb_indexed, forallb_elem_of.
  setoid_rewrite elem_of_grid. unfold constraint_okb. simpl forallb.
  rewrite andb_true_r. tauto.
Qed.

(** ** C1: the SOC balance *)

(** C1.  Every model the builder returns has, in [constraint_soc_balance],
    exactly one equality per timestep of the grid, in grid order.  Its
    expression tree is [soc_balance_at]: at the first index [t0] of the
    time grid the right-hand side starts from [capacity * soc_init], at
    every other index from [energy[t-1]].  The constraint holds under a
    valuation exactly when the SOC-balance equation of the specification
    does, so every feasible point satisfies the recurrence at every
    timestep. *)
Theorem soc_balance_in_model (df : DataFrame) (d : gmap string Q)
    (profile : DataFrame) (m : ConcreteModel) (s : StorageSpec) :
  build_arbitrage_model df d profile = Ok m →
  spec_of d = Some s →
  ∃ t0, RangeSet_first (time m) = Ok t0
    ∧ (constraint_soc_balance m).*1 = Some <$> time m
    ∧ (∀ t r, (Some t, r) ∈ constraint_soc_balance m
              ↔ t ∈ time m ∧ r = soc_balance_at s t0 t)
    ∧ (∀ t ρ, holdsb ρ (soc_balance_at s t0 t) = true
              ↔ soc_balance_equation s t0 ρ t)
    ∧ (∀ ρ, feasible m ρ → ∀ t, t ∈ time m → soc_balance_equation s t0 ρ t).
Proof.
  intros Hb Hs. built_from Hb Hs.
  exists 0%Z. cbn [closed_model time constraint_soc_balance].
  split; [|split; [|split; [|split]]].
  - rewrite RangeSet_first_grid, decide_False by lia. reflexivity.
  - apply indexed_fst.
  - intros t r. apply elem_of_indexed.
  - intros t ρ. apply holdsb_soc_balance_at.
  - intros ρ Hf t Ht. apply feasible_closed_model in Hf as (_ & Hbal & _).
    apply holdsb_soc_balance_at, Hbal. by apply elem_of_grid.
Qed.


(** The notebook's own call, [build_arbitrage_model(storage, df)]. *)
Lemma soc_balance_in_model_witness :
  ∃ t0, RangeSet_first (time model4) = Ok t0
    ∧ (constraint_soc_balance model4).*1 = Some <$> time model4
    ∧ (∀ t r, (Some t, r) ∈ constraint_soc_balance model4
              ↔ t ∈ time model4 ∧ r = soc_balance_at spec4 t0 t)
    ∧ (∀ t ρ, holdsb ρ (soc_balance_at spec4 t0 t) = true
              ↔ soc_balance_equation spec4 t0 ρ t)
    ∧ (∀ ρ, feasible model4 ρ →
            ∀ t, t ∈ time model4 → soc_balance_equation spec4 t0 ρ t).
Proof.
  apply (soc_balance_in_model df4 storage df4 model4 spec4);
    vm_compute; reflexivity.
Defined.

(** ** C2: the objective *)

Lemma eval_fold_left_Add (ρ : valuation) (es : list expr) (acc : expr) :
  eval ρ (fold_left Add es acc) == eval ρ acc + Qsum (eval ρ <$> es).
Proof.
  revert acc. induction es as [|e es IH]; intros acc;
    cbn [fold_left fmap list_fmap Qsum foldr].
  - ring.
  - rewrite IH. cbn [eval]. fold (Qsum (eval ρ <$> es)). ring.
Qed.

Lemma eval_py_sum (ρ : valuation) (es : list expr) :
  eval ρ (py_sum es) == Qsum (eval ρ <$> es).
Proof. unfold py_sum. rewrite eval_fold_left_Add. cbn [eval]. ring. Qed.

Lemma price_at_middle (pre : DataFrame) (r : row) (rest : DataFrame) :
  price_at (pre ++ r :: rest) (len pre) = price r.
Proof.
  unfold price_at, len. rewrite Nat2Z.id.
  rewrite (list_lookup_middle pre rest r (length pre) eq_refl). reflexivity.
Qed.

(** The terms the objective rule builds for the rows [suf] that follow
    [pre] in the profile add up to the net cost of those rows. *)
Lemma Qsum_objective_terms (ρ : valuation) (pre suf : DataFrame) :
  Qsum (eval ρ <$> (objective_term (pre ++ suf) <$> seqZ (len pre) (len suf)))
  == net_cost_from ρ (len pre) suf.
Proof.
  revert pre. induction suf as [|r rest IH]; intros pre.
  - reflexivity.
  - rewrite seqZ_cons by (unfold len; simpl; lia).
    replace (Z.pred (len (r :: rest))) with (len rest)
      by (unfold len; simpl; lia).
    replace (Z.succ (len pre)) with (len (pre ++ [r]))
      by (unfold len; rewrite length_app; simpl; lia).
    cbn [fmap list_fmap Qsum foldr net_cost_from].
    replace (len pre + 1)%Z with (len (pre ++ [r]))
      by (unfold len; rewrite length_app; simpl; lia).
    rewrite <- IH. rewrite <- (app_assoc pre [r] rest). cbn [app].
    unfold objective_term at 1. cbn [eval].
    rewrite price_at_middle. reflexivity.
Qed.

Lemma price_at_take (profile : DataFrame) (n : nat) (t : Z) :
  (0 ≤ t < Z.of_nat n)%Z → price_at (take n profile) t = price_at profile t.
Proof.
  intros Ht. unfold price_at. rewrite lookup_take_lt by lia. reflexivity.
Qed.

Lemma objective_terms_take (profile : DataFrame) (n : nat) :
  objective_term profile <$> seqZ 0 (Z.of_nat n)
  = objective_term (take n profile) <$> seqZ 0 (Z.of_nat n).
Proof.
  apply list_fmap_ext. intros i t Ht.
  apply lookup_seqZ in Ht as [-> Hi].
  unfold objective_term. rewrite price_at_take by lia. reflexivity.
Qed.

(** The objective of a built model, whatever the global frame: the net
    cost of the first [len(df)] rows of the profile. *)
Lemma objective_over_grid (df : DataFrame) (d : gmap string Q)
    (profile : DataFrame) (m : ConcreteModel) :
  build_arbitrage_model df d profile = Ok m →
  ∃ o, obj m = Some o ∧ sense o = minimize
    ∧ ∀ ρ, eval ρ (obj_expr o)
           == net_purchase_cost ρ (take (length df) profile).
Proof.
  intros Hb. apply build_arbitrage_model_Ok in Hb as (s & _ & Hn & _ & ->).
  eexists. split; [reflexivity|]. split; [reflexivity|]. intros ρ.
  cbn [obj_expr]. rewrite eval_py_sum. unfold len at 1.
  rewrite objective_terms_take.
  set (suf := take (length df) profile).
  assert (len suf = Z.of_nat (length df)) as <-.
  { unfold suf, len in *. rewrite length_take. lia. }
  apply (Qsum_objective_terms ρ [] suf).
Qed.

(** The objective of a built model is a minimisation, and under every
    valuation its expression evaluates to the sum, over the timesteps [t]
    of the grid, of [(power_ch[t] - power_dch[t]) * dt * price[t]].  The
    grid has [len(df)] steps, [df] being the notebook's global frame; only
    when that is the length of the profile does the sum run over all rows
    of the profile. *)
Lemma objective_is_net_purchase_cost (df : DataFrame) (d : gmap string Q)
    (profile : DataFrame) (m : ConcreteModel) :
  build_arbitrage_model df d profile = Ok m →
  ∃ o, obj m = Some o ∧ sense o = minimize
    ∧ (∀ ρ, eval ρ (obj_expr o)
            == net_purchase_cost ρ (take (length (time m)) profile))
    ∧ (length df = length profile →
       ∀ ρ, eval ρ (obj_expr o) == net_purchase_cost ρ profile).
Proof.
  intros Hb. destruct (objective_over_grid _ _ _ _ Hb) as (o & Ho & Hs & He).
  exists o. split; [done|]. split; [done|].
  apply build_arbitrage_model_Ok in Hb as (s & _ & Hn & _ & ->).
  cbn [closed_model time]. rewrite length_seqZ. unfold len at 1.
  rewrite Nat2Z.id. split; [exact He|].
  intros Hlen ρ. rewrite He, Hlen, firstn_all. reflexivity.
Qed.

(** C2, the code at the failing input.  For a profile of four rows and a
    global frame of two, the builder returns a model whose objective has
    two terms only: a schedule that charges in timestep 2 has objective
    value 0, where the sum over all four rows of the profile is
    [1 * 0.25 * 10 = 2.5].  The horizon of the sum comes from the global
    [df], as the number of timesteps does. *)
Theorem objective_skips_profile_rows :
  build_arbitrage_model df2 storage df4 = Ok (closed_model spec4 df4 2)
  ∧ ∃ o, obj (closed_model spec4 df4 2) = Some o
      ∧ sense o = minimize
      ∧ eval charge_late (obj_expr o) == 0
      ∧ net_purchase_cost charge_late df4 == 5 # 2.
Proof.
  split; [vm_compute; reflexivity|].
  eexists. split; [reflexivity|]. split; [reflexivity|].
  split; vm_compute; reflexivity.
Qed.

(** ** C3: the terminal state *)

(** C3.  The component [constraint_soc_end] of a built model holds exactly
    one constraint.  It is the inequality
    [energy[last] >= capacity * soc_init] at the last index of the time
    grid: it holds under a valuation exactly when the final energy is at
    least the initial one, so every feasible point ends with at least the
    initial stored energy. *)
Theorem terminal_soc_constraint (df : DataFrame) (d : gmap string Q)
    (profile : DataFrame) (m : ConcreteModel) (s : StorageSpec) :
  build_arbitrage_model df d profile = Ok m →
  spec_of d = Some s →
  ∃ tl, RangeSet_last (time m) = Ok tl
    ∧ constraint_soc_end m
      = [(None, EGe (VarRef Fbess_energy tl) (Num (capacity s * soc_init s)))]
    ∧ (∀ ρ, holdsb ρ (EGe (VarRef Fbess_energy tl)
                           (Num (capacity s * soc_init s))) = true
            ↔ capacity s * soc_init s <= ρ Fbess_energy tl)
    ∧ (∀ ρ, feasible m ρ → capacity s * soc_init s <= ρ Fbess_energy tl).
Proof.
  intros Hb Hs. built_from Hb Hs.
  exists (len df - 1)%Z. cbn [closed_model time constraint_soc_end].
  split; [|split; [|split]].
  - rewrite RangeSet_last_grid, decide_False by lia. reflexivity.
  - reflexivity.
  - intros ρ. cbn [holdsb eval]. apply Qle_bool_iff.
  - intros ρ Hf. apply feasible_closed_model in Hf as (_ & _ & Hend).
    by apply Qle_bool_iff in Hend.
Qed.

(** The notebook's own call: the terminal constraint sits at index 3. *)
Lemma terminal_soc_constraint_witness :
  ∃ tl, RangeSet_last (time model4) = Ok tl
    ∧ constraint_soc_end model4
      = [(None, EGe (VarRef Fbess_energy tl)
                    (Num (capacity spec4 * soc_init spec4)))]
    ∧ (∀ ρ, holdsb ρ (EGe (VarRef Fbess_energy tl)
                           (Num (capacity spec4 * soc_init spec4))) = true
            ↔ capacity spec4 * soc_init spec4 <= ρ Fbess_energy tl)
    ∧ (∀ ρ, feasible model4 ρ →
            capacity spec4 * soc_init spec4 <= ρ Fbess_energy tl).
Proof.
  apply (terminal_soc_constraint df4 storage df4 model4 spec4);
    vm_compute; reflexivity.
Defined.

(** ** C4: the box *)

Lemma var_okb_grid (ρ : valuation) (f : family) (n : Z) :
  var_okb ρ f {| index_set := seqZ 0 n; domain := NonNegativeReals |} = true
  ↔ ∀ t, (0 ≤ t < n)%Z → 0 <= ρ f t.
Proof.
  unfold var_okb. cbn [index_set domain in_domainb].
  rewrite forallb_elem_of. setoid_rewrite elem_of_grid.
  by setoid_rewrite Qle_bool_iff.
Qed.

Lemma boundsb_closed_model (s : StorageSpec) (profile : DataFrame) (n : Z)
    (ρ : valuation) :
  boundsb (closed_model s profile n) ρ = true
  ↔ ∀ t, (0 ≤ t < n)%Z → in_box s ρ t.
Proof.
  unfold boundsb. cbn [closed_model bess_energy power_ch power_dch
    constraint_power_charge_limit constraint_power_discharge_limit
    constraint_energy_max constraint_energy_min].
  rewrite !andb_true_iff, !var_okb_grid, !constraint_okb_indexed,
    !forallb_elem_of.
  setoid_rewrite elem_of_grid. unfold in_box.
  cbn [holdsb eval charge_limit_at discharge_limit_at energy_max_at
    energy_min_at].
  setoid_rewrite Qle_bool_iff. split.
  - intros [[[[[[He Hc] Hd] Hcl] Hdl] Hmax] Hmin] t Ht.
    repeat split; auto.
  - intros H. repeat split; intros t Ht; apply (H t Ht).
Qed.

(** C4.  In a built model the three variable families are indexed by the
    time grid and have the non-negative domain, and the four bound
    components hold, per timestep, the upper bounds
    [power_ch[t] <= capacity * erate_ch],
    [power_dch[t] <= capacity * erate_dch],
    [energy[t] <= capacity * soc_max] and the lower bound
    [energy[t] >= capacity * soc_min].  Together, domains and bound
    components say exactly that every timestep lies in its box, the lower
    bound 0 coming from the domains alone; so every feasible point lies in
    the box and has no negative power or energy. *)
Theorem variables_boxed (df : DataFrame) (d : gmap string Q)
    (profile : DataFrame) (m : ConcreteModel) (s : StorageSpec) :
  build_arbitrage_model df d profile = Ok m →
  spec_of d = Some s →
  (∀ f, component m f = {| index_set := time m; domain := NonNegativeReals |})
  ∧ constraint_power_charge_limit m
    = (λ t, (Some t, ELe (VarRef Fpower_ch t) (Num (capacity s * erate_ch s))))
      <$> time m
  ∧ constraint_power_discharge_limit m
    = (λ t, (Some t, ELe (VarRef Fpower_dch t) (Num (capacity s * erate_dch s))))
      <$> time m
  ∧ constraint_energy_max m
    = (λ t, (Some t, ELe (VarRef Fbess_energy t) (Num (capacity s * soc_max s))))
      <$> time m
  ∧ constraint_energy_min m
    = (λ t, (Some t, EGe (VarRef Fbess_energy t) (Num (capacity s * soc_min s))))
      <$> time m
  ∧ (∀ ρ, (∀ f t, t ∈ time m → in_domainb (domain (component m f)) (ρ f t) = true)
          ↔ ∀ f t, t ∈ time m → 0 <= ρ f t)
  ∧ (∀ ρ, boundsb m ρ = true ↔ ∀ t, t ∈ time m → in_box s ρ t)
  ∧ (∀ ρ, feasible m ρ → ∀ t, t ∈ time m → in_box s ρ t).
Proof.
  intros Hb Hs. built_from Hb Hs.
  split; [by intros []|]. do 4 (split; [reflexivity|]).
  split; [|split].
  - intros ρ. split; intros H f t Ht.
    + specialize (H f t Ht). destruct f; by apply Qle_bool_iff in H.
    + destruct f; apply Qle_bool_iff; by apply H.
  - intros ρ. rewrite boundsb_closed_model. cbn [closed_model time].
    by setoid_rewrite elem_of_grid.
  - intros ρ Hf t Ht. apply feasible_closed_model in Hf as (Hbox & _ & _).
    rewrite boundsb_closed_model in Hbox. apply Hbox.
    by apply elem_of_grid.
Qed.

(** Leaving the battery idle is feasible for the notebook's model. *)
Lemma idle_feasible : feasible model4 idle.
Proof. vm_compute. reflexivity. Qed.

(** The idle schedule lies in the box at every timestep. *)
Lemma variables_boxed_witness :
  feasible model4 idle ∧ ∀ t, t ∈ time model4 → in_box spec4 idle t.
Proof.
  split; [exact idle_feasible|].
  destruct (variables_boxed df4 storage df4 model4 spec4)
    as (_ & _ & _ & _ & _ & _ & _ & Hbox); [vm_compute; reflexivity..|].
  exact (Hbox idle idle_feasible).
Defined.

(** ** C5: invalid parameter sets *)

(** C5 as stated fails: with [soc_min = 0.9 > soc_max = 0.1] and a negative
    charge efficiency the builder raises nothing and returns a model. *)
Lemma invalid_spec_builds_model :
  spec_of storage_inverted = Some spec_inverted
  ∧ valid_StorageSpec spec_inverted = false
  ∧ Qle_bool (soc_min spec_inverted) (soc_max spec_inverted) = false
  ∧ Qle_bool (eff_ch spec_inverted) 0 = true
  ∧ build_arbitrage_model df4 storage_inverted df4
    = Ok (closed_model spec_inverted df4 4).
Proof. repeat split; vm_compute; reflexivity. Qed.

Lemma inverted_bounds_infeasible (s : StorageSpec) (profile : DataFrame)
    (n : Z) (ρ : valuation) :
  (1 ≤ n)%Z → soc_max s < soc_min s → 0 < capacity s →
  ¬ feasible (closed_model s profile n) ρ.
Proof.
  intros Hn Hinv Hcap Hf. apply feasible_closed_model in Hf as (Hbox & _ & _).
  rewrite boundsb_closed_model in Hbox.
  destruct (Hbox 0%Z ltac:(lia)) as (_ & _ & _ & Hlo & Hhi).
  apply (Qmult_lt_l _ _ _ Hcap) in Hinv.
  apply (Qlt_irrefl (capacity s * soc_min s)).
  eapply Qle_lt_trans; [|exact Hinv]. by eapply Qle_trans.
Qed.

(** C5, amended.  The builder does not validate the parameter set.  With
    all eight keys present and a non-empty time grid that the profile
    covers, it raises exactly when [eff_dch] is zero (the division
    [1/eff_dch] in the balance rule, at build time), and returns a model
    for every other parameter set, valid or not.  When [soc_min > soc_max]
    and the capacity is positive, the returned model has no feasible
    point. *)
Theorem builder_does_not_validate (df : DataFrame) (d : gmap string Q)
    (profile : DataFrame) (s : StorageSpec) :
  spec_of d = Some s →
  (1 ≤ len df ≤ len profile)%Z →
  build_arbitrage_model df d profile
  = (if Qeq_bool (eff_dch s) 0 then Raise ZeroDivisionError
     else Ok (closed_model s profile (len df)))
  ∧ (soc_max s < soc_min s → 0 < capacity s →
     ∀ ρ, ¬ feasible (closed_model s profile (len df)) ρ).
Proof.
  intros Hs Hn. split.
  - rewrite build_arbitrage_model_eq, Hs.
    rewrite (proj2 (Z.ltb_ge _ _)) by lia.
    rewrite decide_False by lia. reflexivity.
  - intros Hinv Hcap ρ. apply inverted_bounds_infeasible; [lia|done..].
Qed.

(** The inverted parameter set on the notebook's frame. *)
Lemma builder_does_not_validate_witness :
  build_arbitrage_model df4 storage_inverted df4
  = (if Qeq_bool (eff_dch spec_inverted) 0 then Raise ZeroDivisionError
     else Ok (closed_model spec_inverted df4 (len df4)))
  ∧ (soc_max spec_inverted < soc_min spec_inverted →
     0 < capacity spec_inverted →
     ∀ ρ, ¬ feasible (closed_model spec_inverted df4 (len df4)) ρ).
Proof.
  apply (builder_does_not_validate df4 storage_inverted df4 spec_inverted).
  - vm_compute. reflexivity.
  - vm_compute. split; discriminate.
Defined.

(** ** C6: what the model depends on *)

(** The builder reads the global frame only through its length. *)
Lemma build_depends_on_len (df df' : DataFrame) (d : gmap string Q)
    (profile : DataFrame) :
  length df = length df' →
  build_arbitrage_model df d profile = build_arbitrage_model df' d profile.
Proof.
  intros H. rewrite !build_arbitrage_model_eq. unfold len. by rewrite H.
Qed.

(** C6, the code at the failing input.  The same [storage_params] and the
    same [profile] give a model of four timesteps under a global frame of
    four rows and a model of two timesteps under a global frame of two
    rows: the number of timesteps comes from the global [df], not from the
    arguments. *)
Theorem model_depends_on_global_df :
  build_arbitrage_model df4 storage df4 = Ok (closed_model spec4 df4 4)
  ∧ build_arbitrage_model df2 storage df4 = Ok (closed_model spec4 df4 2)
  ∧ time (closed_model spec4 df4 4) = [0; 1; 2; 3]%Z
  ∧ time (closed_model spec4 df4 2) = [0; 1]%Z.
Proof. repeat split; vm_compute; reflexivity. Qed.

(** ** The read-back cell *)

Section ReadBack.
Variables (m : ConcreteModel) (n : Z) (sol : Solution).
Hypothesis Htime : time m = seqZ 0 n.
Hypothesis Hindex : ∀ f, index_set (component m f) = seqZ 0 n.

Lemma value_VarRef (f : family) (t : Z) :
  value sol (VarRef f t)
  = if bool_decide (is_Some (var_value sol f t)) then Ok (val sol f t)
    else Raise ValueError.
Proof.
  unfold val. cbn [value]. destruct (var_value sol f t) as [q|].
  - by rewrite bool_decide_true by eauto.
  - by rewrite bool_decide_false by (by intros [? ?]).
Qed.

Lemma power_loop :
  mapM (λ t,
    ch ← Var_getitem m Fpower_ch t;
    a ← value sol ch;
    dch ← Var_getitem m Fpower_dch t;
    b ← value sol dch;
    mret (a - b)) (seqZ 0 n)
  = if forallb (has_power sol) (seqZ 0 n) then Ok (net_power sol <$> seqZ 0 n)
    else Raise ValueError.
Proof.
  apply mapM_uniform. intros t Ht. apply elem_of_grid in Ht.
  rewrite !(Var_getitem_grid m n Hindex) by done.
  unfold has_power, net_power. cbn [mbind result_bind].
  rewrite !value_VarRef.
  destruct (bool_decide (is_Some (var_value sol Fpower_ch t)));
    cbn [mbind result_bind andb]; [|reflexivity].
  by destruct (bool_decide (is_Some (var_value sol Fpower_dch t))).
Qed.

(** The SOC loop when the capacity is not zero. *)
Lemma soc_loop (cap : Q) :
  Qeq_bool cap 0 = false →
  mapM (λ t,
    e ← Var_getitem m Fbess_energy t;
    x ← value sol e;
    truediv x cap) (seqZ 0 n)
  = if forallb (has_energy sol) (seqZ 0 n)
    then Ok (soc_of sol cap <$> seqZ 0 n)
    else Raise ValueError.
Proof.
  intros Hcap. apply mapM_uniform. intros t Ht. apply elem_of_grid in Ht.
  rewrite (Var_getitem_grid m n Hindex) by done.
  unfold has_energy, soc_of, truediv. cbn [mbind result_bind].
  rewrite value_VarRef.
  destruct (bool_decide (is_Some (var_value sol Fbess_energy t)));
    cbn [mbind result_bind]; [|reflexivity].
  by rewrite Hcap.
Qed.

(** The SOC loop when every energy value is there. *)
Lemma soc_loop_values (cap : Q) :
  forallb (has_energy sol) (seqZ 0 n) = true →
  mapM (λ t,
    e ← Var_getitem m Fbess_energy t;
    x ← value sol e;
    truediv x cap) (seqZ 0 n)
  = if decide (n ≤ 0)%Z then Ok []
    else if Qeq_bool cap 0 then Raise ZeroDivisionError
    else Ok (soc_of sol cap <$> seqZ 0 n).
Proof.
  intros Hall. rewrite forallb_elem_of in Hall.
  erewrite (mapM_uniform _ (soc_of sol cap) (λ _, negb (Qeq_bool cap 0))
              ZeroDivisionError).
  - rewrite forallb_const. case_decide as Hn.
    + by rewrite (proj2 (grid_nil n) Hn).
    + rewrite (seqZ_cons 0 n) by lia. by destruct (Qeq_bool cap 0).
  - intros t Ht. specialize (Hall t Ht). apply elem_of_grid in Ht.
    rewrite (Var_getitem_grid m n Hindex) by done.
    cbn [mbind result_bind]. rewrite value_VarRef.
    unfold has_energy in Hall. rewrite Hall. cbn [mbind result_bind].
    unfold truediv, soc_of. by destruct (Qeq_bool cap 0).
Qed.
End ReadBack.

Lemma forallb_andb {A} (p q : A → bool) (l : list A) :
  forallb (λ x, p x && q x) l = forallb p l && forallb q l.
Proof.
  induction l as [|x l IH]; [reflexivity|]. simpl. rewrite IH.
  destruct (p x), (q x), (forallb p l), (forallb q l); reflexivity.
Qed.

Lemma column_assign_eq (rows : nat) (values : list Q) :
  column_assign rows values
  = if bool_decide (rows = 0%nat ∨ length values = rows)
    then Ok (length values) else Raise ValueError.
Proof.
  unfold column_assign. destruct (decide (rows = 0%nat)) as [->|Hr].
  - by rewrite bool_decide_true by auto.
  - destruct (decide (length values = rows)) as [<-|Hl].
    + by rewrite bool_decide_true by auto.
    + by rewrite bool_decide_false by (by intros [|]).
Qed.

(** The SOC loop for a capacity of zero stops at the first timestep. *)
Lemma soc_loop_zero (m : ConcreteModel) (n : Z) (sol : Solution) (cap : Q) :
  (∀ f, index_set (component m f) = seqZ 0 n) →
  (1 ≤ n)%Z → Qeq_bool cap 0 = true →
  mapM (λ t,
    e ← Var_getitem m Fbess_energy t;
    x ← value sol e;
    truediv x cap) (seqZ 0 n)
  = if has_energy sol 0 then Raise ZeroDivisionError else Raise ValueError.
Proof.
  intros Hindex Hn Hcap. rewrite (seqZ_cons 0 n), mapM_cons by lia.
  rewrite (Var_getitem_grid m n Hindex) by lia.
  cbn [mbind result_bind]. rewrite value_VarRef. unfold has_energy, truediv.
  destruct (bool_decide (is_Some (var_value sol Fbess_energy 0)));
    cbn [mbind result_bind]; [|reflexivity].
  by rewrite Hcap.
Qed.

Lemma closed_model_index (s : StorageSpec) (profile : DataFrame) (n : Z)
    (f : family) :
  index_set (component (closed_model s profile n) f) = seqZ 0 n.
Proof. by destruct f. Qed.

Create HintDb grid.
#[local] Hint Resolve closed_model_index : grid.

(** The cell on a model indexed by a non-empty grid, case by case and in
    the order the cell reaches its exceptions. *)
Lemma write_results_on_grid (m : ConcreteModel) (n : Z) (sol : Solution)
    (st : gmap string Q) (df : DataFrame) :
  time m = seqZ 0 n →
  (∀ f, index_set (component m f) = seqZ 0 n) →
  (1 ≤ n)%Z →
  write_results st m sol df
  = match st !! "capacity"%string with
    | None => Raise KeyError
    | Some cap =>
        if negb (forallb (has_power sol) (seqZ 0 n)) then Raise ValueError
        else if negb (bool_decide (length df = 0%nat
                                   ∨ length (seqZ 0 n) = length df))
        then Raise ValueError
        else if Qeq_bool cap 0
        then (if has_energy sol 0 then Raise ZeroDivisionError
              else Raise ValueError)
        else if forallb (has_energy sol) (seqZ 0 n)
        then Ok {| frame := df; power := net_power sol <$> seqZ 0 n;
                   soc := soc_of sol cap <$> seqZ 0 n |}
        else Raise ValueError
    end.
Proof.
  intros Htime Hindex Hn. unfold write_results, dict_getitem.
  destruct (st !! "capacity"%string) as [cap|]; [|reflexivity].
  rewrite Ok_bind, Htime, (power_loop m n sol Hindex).
  destruct (forallb (has_power sol) (seqZ 0 n)); [|reflexivity].
  rewrite Ok_bind, column_assign_eq, length_fmap. cbn [negb].
  destruct (bool_decide (length df = 0%nat ∨ length (seqZ 0 n) = length df));
    [|reflexivity].
  rewrite Ok_bind. cbn [negb].
  destruct (Qeq_bool cap 0) eqn:Hcap.
  - rewrite (soc_loop_zero m n sol cap Hindex Hn Hcap).
    by destruct (has_energy sol 0).
  - rewrite (soc_loop m n sol Hindex cap Hcap).
    destruct (forallb (has_energy sol) (seqZ 0 n)); [|reflexivity].
    rewrite Ok_bind, column_assign_eq, !length_fmap.
    by rewrite bool_decide_true by auto.
Qed.

(** The cell when every variable of the grid has a value and the frame
    has the grid's length: the division decides. *)
Lemma write_results_values (m : ConcreteModel) (n : Z) (sol : Solution)
    (st : gmap string Q) (df : DataFrame) (cap : Q) :
  time m = seqZ 0 n →
  (∀ f, index_set (component m f) = seqZ 0 n) →
  (1 ≤ n)%Z →
  st !! "capacity"%string = Some cap →
  forallb (has_values sol) (seqZ 0 n) = true →
  length (seqZ 0 n) = length df →
  write_results st m sol df
  = if Qeq_bool cap 0 then Raise ZeroDivisionError
    else Ok {| frame := df; power := net_power sol <$> seqZ 0 n;
               soc := soc_of sol cap <$> seqZ 0 n |}.
Proof.
  intros Htime Hindex Hn Hst Hall Hlen.
  rewrite (write_results_on_grid m n) by done. rewrite Hst.
  unfold has_values in Hall. rewrite forallb_andb in Hall.
  apply andb_true_iff in Hall as [Hp He]. rewrite Hp, He.
  rewrite bool_decide_true by auto. cbn [negb].
  rewrite forallb_elem_of in He.
  by rewrite (He 0%Z) by (apply elem_of_grid; lia).
Qed.

Lemma no_values_no_power (sol : Solution) (n : Z) :
  (1 ≤ n)%Z → forallb (no_values sol) (seqZ 0 n) = true →
  forallb (has_power sol) (seqZ 0 n) = false.
Proof.
  intros Hn Hno. apply not_true_is_false. intros Hp.
  rewrite forallb_elem_of in Hno, Hp.
  specialize (Hno 0%Z ltac:(apply elem_of_grid; lia)).
  specialize (Hp 0%Z ltac:(apply elem_of_grid; lia)).
  unfold no_values, has_power in *.
  destruct (bool_decide (is_Some (var_value sol Fpower_ch 0))); discriminate.
Qed.

(** ** C7: the read-back and the solver status *)

(** C7.  On a built model, with the capacity in the dictionary and a
    Solution as the solver boundary hands it back, the read-back raises
    [ValueError] whenever the Solution is marked infeasible or unbounded,
    and whenever it holds no values at all.  It returns a frame only for
    an optimal Solution, and then every entry comes from the stored
    values, net power as [power_ch[t] - power_dch[t]] and SOC as
    [energy[t] / capacity]; no entry is ever a default.  For an optimal
    Solution, a capacity that is not zero and a frame of the grid's length
    it returns these two columns. *)
Theorem read_back_needs_optimal (df : DataFrame) (d : gmap string Q)
    (profile : DataFrame) (m : ConcreteModel) (st : gmap string Q) (cap : Q)
    (sol : Solution) (frame0 : DataFrame) :
  build_arbitrage_model df d profile = Ok m →
  st !! "capacity"%string = Some cap →
  solver_boundary m sol = true →
  (termination_condition sol ≠ optimal →
   write_results st m sol frame0 = Raise ValueError)
  ∧ (forallb (no_values sol) (time m) = true →
     write_results st m sol frame0 = Raise ValueError)
  ∧ (∀ r, write_results st m sol frame0 = Ok r →
       termination_condition sol = optimal
       ∧ ∀ i t, time m !! i = Some t →
           ∃ a b e, var_value sol Fpower_ch t = Some a
             ∧ var_value sol Fpower_dch t = Some b
             ∧ var_value sol Fbess_energy t = Some e
             ∧ power r !! i = Some (a - b)
             ∧ soc r !! i = Some (e / cap))
  ∧ (termination_condition sol = optimal →
     Qeq_bool cap 0 = false →
     length (time m) = length frame0 →
     write_results st m sol frame0
     = Ok {| frame := frame0; power := net_power sol <$> time m;
             soc := soc_of sol cap <$> time m |}).
Proof.
  intros Hb Hst Hsb.
  apply build_arbitrage_model_Ok in Hb as (s & _ & Hn & _ & ->).
  cbn [closed_model time] in *.
  pose proof (write_results_on_grid (closed_model s profile (len df))
                (len df) sol st frame0 eq_refl
                (closed_model_index s profile (len df)) ltac:(lia)) as Heq.
  rewrite Hst in Heq.
  assert (Habsent : forallb (no_values sol) (seqZ 0 (len df)) = true →
                    write_results st (closed_model s profile (len df)) sol
                      frame0 = Raise ValueError).
  { intros Hno. rewrite Heq, (no_values_no_power sol (len df)) by (done || lia).
    reflexivity. }
  assert (Hnonopt : termination_condition sol ≠ optimal →
                    forallb (no_values sol) (seqZ 0 (len df)) = true).
  { intros Htc. unfold solver_boundary in Hsb. cbn [closed_model time] in Hsb.
    by destruct (termination_condition sol). }
  split; [by intros Htc; apply Habsent, Hnonopt|]. split; [exact Habsent|].
  split.
  - intros r Hr.
    assert (Htc : termination_condition sol = optimal).
    { destruct (termination_condition sol) eqn:E; [reflexivity|..];
        rewrite Habsent in Hr by (by apply Hnonopt); discriminate. }
    split; [exact Htc|]. rewrite Heq in Hr.
    destruct (forallb (has_power sol) (seqZ 0 (len df))) eqn:Hp;
      [|discriminate]. cbn [negb] in Hr.
    destruct (bool_decide _); [|discriminate]. cbn [negb] in Hr.
    destruct (Qeq_bool cap 0);
      [destruct (has_energy sol 0); discriminate|].
    destruct (forallb (has_energy sol) (seqZ 0 (len df))) eqn:He;
      [|discriminate].
    injection Hr as <-. intros i t Hi.
    rewrite forallb_elem_of in Hp, He.
    assert (Ht : t ∈ seqZ 0 (len df)) by (apply list_elem_of_lookup; eauto).
    specialize (Hp t Ht). specialize (He t Ht).
    unfold has_power, has_energy in Hp, He.
    rewrite andb_true_iff, !bool_decide_eq_true in Hp.
    rewrite bool_decide_eq_true in He.
    destruct Hp as [[a Ha] [b Hb]]. destruct He as [e He].
    exists a, b, e. repeat split; auto.
    + cbn [power]. rewrite list_lookup_fmap, Hi. cbn.
      unfold net_power, val. by rewrite Ha, Hb.
    + cbn [soc]. rewrite list_lookup_fmap, Hi. cbn.
      unfold soc_of, val. by rewrite He.
  - intros Htc Hcap Hlen. unfold solver_boundary in Hsb.
    rewrite Htc in Hsb. cbn [closed_model time] in Hsb.
    rewrite (write_results_values _ (len df) sol st frame0 cap)
      by (auto with grid || lia).
    by rewrite Hcap.
Qed.

(** A solve that ended infeasible and loaded nothing: the read-back
    raises. *)
Lemma read_back_needs_optimal_witness :
  solver_boundary model4 sol_absent = true
  ∧ write_results storage model4 sol_absent df4 = Raise ValueError.
Proof.
  split; [reflexivity|].
  destruct (read_back_needs_optimal df4 storage df4 model4 storage 1
              sol_absent df4) as (H & _); [vm_compute; reflexivity..|].
  apply H. discriminate.
Defined.

(** ** C8: profile and time grid *)

(** C8, the code at the failing input.  With a global frame of two rows
    the time grid has two steps; a profile of four rows does not match it,
    and the builder raises nothing and returns a model over the two
    steps. *)
Theorem long_profile_accepted :
  length df2 = 2%nat ∧ length df4 = 4%nat
  ∧ build_arbitrage_model df2 storage df4 = Ok (closed_model spec4 df4 2).
Proof. repeat split; vm_compute; reflexivity. Qed.

(** ** C9: the time grid *)

(** C9 as stated fails: for [n = 0] the time-grid step does not fail, it
    sets the empty index set. *)
Lemma empty_grid_is_built :
  len [] = 0%Z
  ∧ build_time [] ConcreteModel_new
    = Ok (0%Z, 1 # 4, set_time ConcreteModel_new []).
Proof. split; reflexivity. Qed.

(** C9, amended.  The time-grid step takes [n = len(df)] and the fixed
    step [dt = 0.25], sets [model.time] to the index set [{0, ..., n-1}]
    (empty when [n = 0]) and never fails; [dt] is positive and is no
    input; nothing but the [time] attribute of the model changes.  On an
    empty grid the builder fails later, when the terminal constraint asks
    for the last index. *)
Theorem build_time_total (df : DataFrame) (model : ConcreteModel) :
  build_time df model = Ok (len df, dt, set_time model (seqZ 0 (len df)))
  ∧ (∀ t, t ∈ time (set_time model (seqZ 0 (len df))) ↔ (0 ≤ t < len df)%Z)
  ∧ dt = 1 # 4 ∧ 0 < dt
  ∧ set_time (set_time model (seqZ 0 (len df))) (time model) = model
  ∧ (len df = 0%Z → ∀ d profile s, spec_of d = Some s →
     build_arbitrage_model df d profile = Raise IndexError).
Proof.
  unfold build_time. rewrite RangeSet_grid. split; [reflexivity|].
  split; [intros t; apply elem_of_grid|]. split; [reflexivity|].
  split; [reflexivity|]. split; [by destruct model|].
  intros Hn d profile s Hs. rewrite build_arbitrage_model_eq, Hs, Hn.
  rewrite (proj2 (Z.ltb_ge _ _)) by (unfold len; lia). reflexivity.
Qed.


(** ** C10: the division by the capacity *)

(** C10.  On a built model whose variables all have values, and a frame of
    the grid's length, the read-back divides every [energy[t]] by the
    capacity with no guard: the cell raises [ZeroDivisionError] when the
    capacity is zero, and returns the columns, with SOC
    [energy[t] / capacity], when it is not. *)
Theorem soc_division_unguarded (df : DataFrame) (d : gmap string Q)
    (profile : DataFrame) (m : ConcreteModel) (st : gmap string Q) (cap : Q)
    (sol : Solution) (frame0 : DataFrame) :
  build_arbitrage_model df d profile = Ok m →
  st !! "capacity"%string = Some cap →
  forallb (has_values sol) (time m) = true →
  length (time m) = length frame0 →
  write_results st m sol frame0
  = if Qeq_bool cap 0 then Raise ZeroDivisionError
    else Ok {| frame := frame0; power := net_power sol <$> time m;
               soc := (λ t, val sol Fbess_energy t / cap) <$> time m |}.
Proof.
  intros Hb Hst Hall Hlen.
  apply build_arbitrage_model_Ok in Hb as (s & _ & Hn & _ & ->).
  cbn [closed_model time] in *.
  apply write_results_values; auto with grid. lia.
Qed.

(** The notebook's parameters with [capacity = 0]: the model is built, and
    the read-back divides by zero. *)
Lemma soc_division_unguarded_witness :
  build_arbitrage_model df4 storage_zero df4 = Ok (closed_model spec_zero df4 4)
  ∧ write_results storage_zero (closed_model spec_zero df4 4) sol_idle df4
    = Raise ZeroDivisionError.
Proof.
  split; [vm_compute; reflexivity|].
  apply (soc_division_unguarded df4 storage_zero df4
           (closed_model spec_zero df4 4) storage_zero 0 sol_idle df4);
    vm_compute; reflexivity.
Defined.

(** * Further properties of the notebook's code *)

(** ** The builder: which exception, and what it reads *)

Lemma spec_of_agree (d d' : gmap string Q) :
  (∀ k, k ∈ storage_keys → d !! k = d' !! k) → spec_of d = spec_of d'.
Proof.
  intros H. unfold spec_of.
  rewrite (H "capacity"%string), (H "soc_init"%string), (H "soc_min"%string),
    (H "soc_max"%string), (H "erate_ch"%string), (H "erate_dch"%string),
    (H "eff_ch"%string), (H "eff_dch"%string)
    by (unfold storage_keys; set_solver).
  reflexivity.
Qed.

Lemma spec_of_None (d : gmap string Q) :
  spec_of d = None ↔ ∃ k, k ∈ storage_keys ∧ d !! k = None.
Proof.
  split.
  - unfold spec_of. intros H.
    destruct (d !! "capacity"%string) eqn:E1;
      [|exists "capacity"%string; split; [unfold storage_keys; set_solver|done]].
    destruct (d !! "soc_init"%string) eqn:E2;
      [|exists "soc_init"%string; split; [unfold storage_keys; set_solver|done]].
    destruct (d !! "soc_min"%string) eqn:E3;
      [|exists "soc_min"%string; split; [unfold storage_keys; set_solver|done]].
    destruct (d !! "soc_max"%string) eqn:E4;
      [|exists "soc_max"%string; split; [unfold storage_keys; set_solver|done]].
    destruct (d !! "erate_ch"%string) eqn:E5;
      [|exists "erate_ch"%string; split; [unfold storage_keys; set_solver|done]].
    destruct (d !! "erate_dch"%string) eqn:E6;
      [|exists "erate_dch"%string; split; [unfold storage_keys; set_solver|done]].
    destruct (d !! "eff_ch"%string) eqn:E7;
      [|exists "eff_ch"%string; split; [unfold storage_keys; set_solver|done]].
    destruct (d !! "eff_dch"%string) eqn:E8;
      [|exists "eff_dch"%string; split; [unfold storage_keys; set_solver|done]].
    discriminate.
  - intros (k & Hk & Hd). unfold spec_of, storage_keys in *.
    repeat (apply elem_of_cons in Hk as [->|Hk];
            [rewrite Hd; simpl; by repeat destruct (d !! _)|]).
    by apply elem_of_nil in Hk.
Qed.

(** X1.  The builder raises [KeyError] exactly when one of its eight keys
    is missing from the dictionary; [IndexError] exactly when the keys are
    there and the profile has fewer rows than the global frame or the
    global frame is empty; [ZeroDivisionError] exactly when keys and
    frames are fine and [eff_dch] is zero; and never [ValueError]. *)
Theorem build_error_classification (df : DataFrame) (d : gmap string Q)
    (profile : DataFrame) :
  (build_arbitrage_model df d profile = Raise KeyError
   ↔ ∃ k, k ∈ storage_keys ∧ d !! k = None)
  ∧ (build_arbitrage_model df d profile = Raise IndexError
     ↔ ∃ s, spec_of d = Some s ∧ (len profile < len df ∨ len df = 0)%Z)
  ∧ (build_arbitrage_model df d profile = Raise ZeroDivisionError
     ↔ ∃ s, spec_of d = Some s ∧ (1 ≤ len df ≤ len profile)%Z
            ∧ eff_dch s == 0)
  ∧ build_arbitrage_model df d profile ≠ Raise ValueError.
Proof.
  rewrite <- spec_of_None, build_arbitrage_model_eq.
  assert (Hlen : (0 ≤ len df)%Z) by (unfold len; lia).
  destruct (spec_of d) as [s|]; [|split; [done|]; split; [|split];
    [split; [discriminate|by intros (? & ? & _)]..|discriminate]].
  destruct (len profile <? len df)%Z eqn:E1;
    [apply Z.ltb_lt in E1|apply Z.ltb_ge in E1].
  { split; [done|]. split; [split; eauto|]. split; [|discriminate].
    split; [discriminate|]. intros (s' & _ & H & _). lia. }
  destruct (decide (len df ≤ 0)%Z) as [E2|E2].
  { split; [done|]. split; [split; [|done]; intros _; exists s; split; [done|lia]|].
    split; [|discriminate].
    split; [discriminate|]. intros (s' & _ & H & _). lia. }
  destruct (Qeq_bool (eff_dch s) 0) eqn:E3.
  - apply Qeq_bool_iff in E3. split; [done|]. split; [|split; [|discriminate]].
    + split; [discriminate|]. intros (s' & _ & [H|H]); lia.
    + split; [|done]. intros _. exists s. repeat split; auto; lia.
  - apply Qeq_bool_neq in E3. split; [done|]. split; [|split; [|discriminate]].
    + split; [discriminate|]. intros (s' & _ & [H|H]); lia.
    + split; [discriminate|]. intros (s' & [= <-] & _ & H). contradiction.
Qed.

(** X2.  The builder reads the dictionary through its eight keys only:
    two dictionaries that agree on them give the same result, model or
    exception. *)
Theorem build_reads_eight_keys (df : DataFrame) (d d' : gmap string Q)
    (profile : DataFrame) :
  (∀ k, k ∈ storage_keys → d !! k = d' !! k) →
  build_arbitrage_model df d profile = build_arbitrage_model df d' profile.
Proof.
  intros H. rewrite !build_arbitrage_model_eq. by rewrite (spec_of_agree d d').
Qed.

(** The notebook's dictionary with one more entry. *)
Lemma build_reads_eight_keys_witness :
  build_arbitrage_model df4 storage df4
  = build_arbitrage_model df4 (<["cycles"%string := 5000]> storage) df4.
Proof.
  apply build_reads_eight_keys. intros k Hk.
  rewrite lookup_insert_ne; [reflexivity|].
  intros <-. vm_compute in Hk. by repeat (inversion Hk as [|? ? ? Hk']; subst; clear Hk; rename Hk' into Hk).
Defined.

Lemma price_at_of_prices (profile : DataFrame) (n : nat) (t : Z) :
  (0 ≤ t < Z.of_nat n)%Z →
  price_at profile t = default 0 ((price <$> take n profile) !! Z.to_nat t).
Proof.
  intros Ht. unfold price_at.
  rewrite list_lookup_fmap, lookup_take_lt by lia. reflexivity.
Qed.

(** X3.  Of the profile the builder reads nothing but the prices of its
    first [len(df)] rows: two profiles with the same prices there give the
    same result, whatever their timestamps and their later rows. *)
Theorem build_reads_grid_prices (df : DataFrame) (d : gmap string Q)
    (profile profile' : DataFrame) :
  price <$> take (length df) profile = price <$> take (length df) profile' →
  build_arbitrage_model df d profile = build_arbitrage_model df d profile'.
Proof.
  intros Hp. rewrite !build_arbitrage_model_eq.
  destruct (spec_of d) as [s|]; [|reflexivity].
  assert (Hl : length df `min` length profile = length df `min` length profile').
  { apply (f_equal length) in Hp. by rewrite !length_fmap, !length_take in Hp. }
  assert (Hlt : (len profile <? len df)%Z = (len profile' <? len df)%Z).
  { unfold len. destruct (Z.ltb_spec (Z.of_nat (length profile))
      (Z.of_nat (length df))), (Z.ltb_spec (Z.of_nat (length profile'))
      (Z.of_nat (length df))); auto; lia. }
  rewrite <- Hlt. destruct (len profile <? len df)%Z; [reflexivity|].
  destruct (decide (len df ≤ 0)%Z); [reflexivity|].
  destruct (Qeq_bool (eff_dch s) 0); [reflexivity|].
  f_equal. unfold closed_model. do 2 f_equal. f_equal. f_equal.
  apply list_fmap_ext. intros i t Ht. apply lookup_seqZ in Ht as [-> Hi].
  unfold objective_term, len in *.
  rewrite !(price_at_of_prices _ (length df)) by lia. by rewrite Hp.
Qed.

(** The notebook's frame against one with two more rows and other
    timestamps. *)
Lemma build_reads_grid_prices_witness :
  build_arbitrage_model df2 storage df2
  = build_arbitrage_model df2 storage
      [ {| timestamp := 5; price := 10 |}; {| timestamp := 6; price := 50 |};
        {| timestamp := 7; price := 99 |}; {| timestamp := 8; price := 1 |} ].
Proof. apply build_reads_grid_prices. reflexivity. Defined.

(** ** The built model as a linear program *)

Lemma Forall_refs_fold_left_Add (P : family * Z → Prop) (es : list expr)
    (acc : expr) :
  Forall P (refs acc) → Forall (λ e, Forall P (refs e)) es →
  Forall P (refs (fold_left Add es acc)).
Proof.
  revert acc. induction es as [|e es IH]; intros acc Hacc Hes; [done|].
  apply Forall_cons in Hes as [He Hes]. cbn [fold_left]. apply IH; [|done].
  cbn [refs]. by apply Forall_app.
Qed.

Lemma linear_fold_left_Add (es : list expr) (acc : expr) :
  linear acc = true → Forall (λ e, linear e = true) es →
  linear (fold_left Add es acc) = true.
Proof.
  revert acc. induction es as [|e es IH]; intros acc Hacc Hes; [done|].
  apply Forall_cons in Hes as [He Hes]. cbn [fold_left]. apply IH; [|done].
  cbn [linear]. by rewrite Hacc, He.
Qed.

Lemma declared_closed_model (s : StorageSpec) (profile : DataFrame) (n : Z)
    (f : family) (t : Z) :
  declared (closed_model s profile n) (f, t) ↔ (0 ≤ t < n)%Z.
Proof. unfold declared. cbn [fst snd]. by rewrite closed_model_index, elem_of_grid. Qed.

(** A property of every constraint of the closed form, read per timestep. *)
Lemma Forall_all_constraints (P : option Z * relational → Prop)
    (s : StorageSpec) (profile : DataFrame) (n : Z) :
  (∀ t, (0 ≤ t < n)%Z →
     P (Some t, charge_limit_at s t) ∧ P (Some t, discharge_limit_at s t)
     ∧ P (Some t, energy_max_at s t) ∧ P (Some t, energy_min_at s t)
     ∧ P (Some t, soc_balance_at s 0 t)) →
  P (None, soc_end_at s (n - 1)) →
  Forall P (all_constraints (closed_model s profile n)).
Proof.
  intros Ht Hend. unfold all_constraints, closed_model, indexed.
  cbn [constraint_power_charge_limit constraint_power_discharge_limit
       constraint_energy_max constraint_energy_min constraint_soc_balance
       constraint_soc_end].
  rewrite !Forall_app, !Forall_fmap, !Forall_seqZ.
  repeat split; try (intros t Hin; apply Ht; lia). by constructor.
Qed.

(** X4.  A built model refers only to variables it declares: every
    variable in the objective and in every constraint has its index in the
    index set of its component; in particular the [energy[t-1]] of the
    balance rule never leaves the grid. *)
Theorem built_model_well_scoped (df : DataFrame) (d : gmap string Q)
    (profile : DataFrame) (m : ConcreteModel) :
  build_arbitrage_model df d profile = Ok m →
  (∀ o, obj m = Some o → Forall (declared m) (refs (obj_expr o)))
  ∧ Forall (λ ic, Forall (declared m)
                    (refs (sides ic.2).1 ++ refs (sides ic.2).2))
      (all_constraints m).
Proof.
  intros Hb. apply build_arbitrage_model_Ok in Hb as (s & _ & Hn & _ & ->).
  split.
  - intros o [= <-]. cbn [obj_expr]. apply Forall_refs_fold_left_Add; [done|].
    apply Forall_fmap, Forall_seqZ. intros t Ht. cbn.
    repeat constructor; apply declared_closed_model; lia.
  - apply Forall_all_constraints.
    + intros t Ht. unfold soc_balance_at.
      destruct (decide (t = 0%Z)); cbn;
        repeat split; repeat constructor; apply declared_closed_model; lia.
    + cbn. repeat constructor. apply declared_closed_model. lia.
Qed.

Lemma built_model_well_scoped_witness :
  (∀ o, obj model4 = Some o → Forall (declared model4) (refs (obj_expr o)))
  ∧ Forall (λ ic, Forall (declared model4)
                    (refs (sides ic.2).1 ++ refs (sides ic.2).2))
      (all_constraints model4).
Proof.
  apply (built_model_well_scoped df4 storage df4 model4).
  vm_compute. reflexivity.
Defined.

(** X5.  A built model is a linear program: the objective and both sides
    of every constraint have degree at most one, no product multiplies two
    variables. *)
Theorem built_model_is_linear (df : DataFrame) (d : gmap string Q)
    (profile : DataFrame) (m : ConcreteModel) :
  build_arbitrage_model df d profile = Ok m →
  (∀ o, obj m = Some o → linear (obj_expr o) = true)
  ∧ Forall (λ ic, linear (sides ic.2).1 && linear (sides ic.2).2 = true)
      (all_constraints m).
Proof.
  intros Hb. apply build_arbitrage_model_Ok in Hb as (s & _ & Hn & _ & ->).
  split.
  - intros o [= <-]. cbn [obj_expr]. apply linear_fold_left_Add; [done|].
    apply Forall_fmap, Forall_seqZ. by intros t Ht.
  - apply Forall_all_constraints; [|done].
    intros t Ht. unfold soc_balance_at. by destruct (decide (t = 0%Z)).
Qed.

Lemma built_model_is_linear_witness :
  (∀ o, obj model4 = Some o → linear (obj_expr o) = true)
  ∧ Forall (λ ic, linear (sides ic.2).1 && linear (sides ic.2).2 = true)
      (all_constraints model4).
Proof.
  apply (built_model_is_linear df4 storage df4 model4). vm_compute. reflexivity.
Defined.

(** X6.  A built model over a global frame of [n] rows has [n] timesteps
    without repetition, [n] variables in each of its three families, and
    [5 * n + 1] constraints. *)
Theorem built_model_size (df : DataFrame) (d : gmap string Q)
    (profile : DataFrame) (m : ConcreteModel) :
  build_arbitrage_model df d profile = Ok m →
  length (time m) = length df ∧ NoDup (time m)
  ∧ (∀ f, length (index_set (component m f)) = length df)
  ∧ length (all_constraints m) = (5 * length df + 1)%nat.
Proof.
  intros Hb. apply build_arbitrage_model_Ok in Hb as (s & _ & Hn & _ & ->).
  assert (Hl : length (seqZ 0 (len df)) = length df)
    by (rewrite length_seqZ; unfold len; lia).
  split; [exact Hl|]. split; [apply NoDup_seqZ|]. split.
  - intros f. by rewrite closed_model_index.
  - unfold all_constraints, closed_model, indexed.
    cbn [constraint_power_charge_limit constraint_power_discharge_limit
         constraint_energy_max constraint_energy_min constraint_soc_balance
         constraint_soc_end].
    rewrite !length_app, !length_fmap, Hl. simpl. lia.
Qed.

Lemma built_model_size_witness :
  length (time model4) = length df4 ∧ NoDup (time model4)
  ∧ (∀ f, length (index_set (component model4 f)) = length df4)
  ∧ length (all_constraints model4) = (5 * length df4 + 1)%nat.
Proof.
  apply (built_model_size df4 storage df4 model4). vm_compute. reflexivity.
Defined.

(** ** Sums of rationals *)

Lemma Qsum_app (l1 l2 : list Q) : Qsum (l1 ++ l2) == Qsum l1 + Qsum l2.
Proof.
  unfold Qsum. induction l1 as [|x l1 IH]; cbn [app foldr].
  - ring.
  - rewrite IH. ring.
Qed.

Lemma Qsum_fmap_le {A} (f g : A → Q) (l : list A) :
  (∀ x, x ∈ l → f x <= g x) → Qsum (f <$> l) <= Qsum (g <$> l).
Proof.
  unfold Qsum. induction l as [|x l IH]; intros H; cbn [fmap list_fmap foldr].
  - apply Qle_refl.
  - apply Qplus_le_compat; [apply H; constructor|].
    apply IH. intros y Hy. apply H. by constructor.
Qed.

Lemma Qsum_fmap_eq {A} (f g : A → Q) (l : list A) :
  (∀ x, x ∈ l → f x == g x) → Qsum (f <$> l) == Qsum (g <$> l).
Proof.
  intros H. apply Qle_antisym; apply Qsum_fmap_le; intros x Hx;
    rewrite (H x Hx); apply Qle_refl.
Qed.

Lemma Qsum_fmap_scale {A} (c : Q) (f : A → Q) (l : list A) :
  Qsum ((λ x, c * f x) <$> l) == c * Qsum (f <$> l).
Proof.
  unfold Qsum. induction l as [|x l IH]; cbn [fmap list_fmap foldr].
  - ring.
  - rewrite IH. ring.
Qed.

(** The objective of the closed form, as a sum over the grid. *)
Lemma eval_objective (profile : DataFrame) (n : Z) (ρ : valuation) :
  eval ρ (py_sum (objective_term profile <$> seqZ 0 n))
  == Qsum ((λ t, (ρ Fpower_ch t - ρ Fpower_dch t) * dt * price_at profile t)
             <$> seqZ 0 n).
Proof. rewrite eval_py_sum, <- list_fmap_compose. reflexivity. Qed.

Lemma gain_succ (s : StorageSpec) (ρ : valuation) (n : Z) :
  (0 ≤ n)%Z → gain s ρ (n + 1) == gain s ρ n + step_gain s ρ n.
Proof.
  intros Hn. unfold gain. rewrite seqZ_app, fmap_app, Qsum_app by lia.
  rewrite (seqZ_cons _ 1), (seqZ_nil _ (Z.pred 1)) by lia.
  unfold Qsum. cbn [fmap list_fmap foldr]. rewrite Z.add_0_l. ring.
Qed.

(** ** Feasible schedules *)

Section Feasible.
Variables (s : StorageSpec) (profile : DataFrame) (n : Z) (ρ : valuation).
Hypothesis Hf : feasible (closed_model s profile n) ρ.

Lemma feasible_in_box (t : Z) : (0 ≤ t < n)%Z → in_box s ρ t.
Proof.
  intros Ht. apply feasible_closed_model in Hf as (Hbox & _ & _).
  rewrite boundsb_closed_model in Hbox. by apply Hbox.
Qed.

Lemma feasible_balance (t : Z) :
  (0 ≤ t < n)%Z → soc_balance_equation s 0 ρ t.
Proof.
  intros Ht. apply feasible_closed_model in Hf as (_ & Hbal & _).
  by apply holdsb_soc_balance_at, Hbal.
Qed.

Lemma feasible_end : capacity s * soc_init s <= ρ Fbess_energy (n - 1)%Z.
Proof.
  apply feasible_closed_model in Hf as (_ & _ & Hend).
  by apply Qle_bool_iff in Hend.
Qed.

(** The recurrence, solved. *)
Lemma feasible_energy (k : nat) :
  (Z.of_nat k < n)%Z →
  ρ Fbess_energy (Z.of_nat k)
  == capacity s * soc_init s + gain s ρ (Z.of_nat k + 1).
Proof.
  induction k as [|k IH]; intros Hk.
  - pose proof (feasible_balance 0 ltac:(lia)) as H.
    unfold soc_balance_equation in H. rewrite decide_True in H by done.
    rewrite (gain_succ s ρ 0) by lia. unfold gain, step_gain.
    rewrite seqZ_nil by lia. unfold Qsum. cbn [fmap list_fmap foldr].
    rewrite H. ring.
  - pose proof (feasible_balance (Z.of_nat (S k)) ltac:(lia)) as H.
    unfold soc_balance_equation in H. rewrite decide_False in H by lia.
    replace (Z.of_nat (S k) - 1)%Z with (Z.of_nat k) in H by lia.
    rewrite (gain_succ s ρ (Z.of_nat (S k))) by lia.
    replace (Z.of_nat (S k)) with (Z.of_nat k + 1)%Z at 2 by lia.
    rewrite H, IH by lia. unfold step_gain. ring.
Qed.

Lemma feasible_gain : (1 ≤ n)%Z → 0 <= gain s ρ n.
Proof.
  intros Hn. pose proof feasible_end as He.
  pose proof (feasible_energy (Z.to_nat (n - 1)) ltac:(lia)) as Hk.
  rewrite Z2Nat.id in Hk by lia. rewrite Hk in He.
  replace (n - 1 + 1)%Z with n in He by lia.
  apply (Qplus_le_r _ _ (capacity s * soc_init s)).
  by rewrite Qplus_0_r.
Qed.
End Feasible.

Lemma idle_balance (s : StorageSpec) (t : Z) :
  soc_balance_equation s 0 (idle_at s) t.
Proof.
  unfold soc_balance_equation. destruct (decide (t = 0%Z)); cbn [idle_at]; ring.
Qed.

Lemma idle_objective (profile : DataFrame) (n : Z) (s : StorageSpec) :
  eval (idle_at s) (py_sum (objective_term profile <$> seqZ 0 n)) == 0.
Proof.
  rewrite eval_objective.
  rewrite (Qsum_fmap_eq _ (λ t, 0 * price_at profile t)).
  - rewrite Qsum_fmap_scale. ring.
  - intros t _. cbn [idle_at]. ring.
Qed.

(** X7.  The schedule that never charges nor discharges and keeps the
    energy at [capacity * soc_init] is feasible for a built model exactly
    when the initial energy is non-negative and within the energy bounds
    and both power limits are non-negative; its objective value is 0.  So
    for such parameters the model is never infeasible and its optimum is
    at most 0. *)
Theorem idle_schedule_feasible (df : DataFrame) (d : gmap string Q)
    (profile : DataFrame) (m : ConcreteModel) (s : StorageSpec) :
  build_arbitrage_model df d profile = Ok m →
  spec_of d = Some s →
  (feasible m (idle_at s)
   ↔ 0 <= capacity s * soc_init s
     ∧ capacity s * soc_min s <= capacity s * soc_init s
     ∧ capacity s * soc_init s <= capacity s * soc_max s
     ∧ 0 <= capacity s * erate_ch s
     ∧ 0 <= capacity s * erate_dch s)
  ∧ ∃ o, obj m = Some o ∧ eval (idle_at s) (obj_expr o) == 0.
Proof.
  intros Hb Hs. built_from Hb Hs. split.
  - rewrite feasible_closed_model, boundsb_closed_model. split.
    + intros (Hbox & _ & _).
      destruct (Hbox 0%Z ltac:(lia)) as ((_ & Hc) & (_ & Hd) & He & Hlo & Hhi).
      cbn [idle_at] in *. auto.
    + intros (He & Hlo & Hhi & Hc & Hd). split; [|split].
      * intros t _. unfold in_box. cbn [idle_at].
        repeat split; auto; apply Qle_refl.
      * intros t _. apply holdsb_soc_balance_at, idle_balance.
      * cbn [holdsb eval soc_end_at idle_at]. apply Qle_bool_iff, Qle_refl.
  - eexists. split; [reflexivity|]. apply idle_objective.
Qed.

Lemma idle_schedule_feasible_witness :
  (feasible model4 (idle_at spec4)
   ↔ 0 <= capacity spec4 * soc_init spec4
     ∧ capacity spec4 * soc_min spec4 <= capacity spec4 * soc_init spec4
     ∧ capacity spec4 * soc_init spec4 <= capacity spec4 * soc_max spec4
     ∧ 0 <= capacity spec4 * erate_ch spec4
     ∧ 0 <= capacity spec4 * erate_dch spec4)
  ∧ ∃ o, obj model4 = Some o ∧ eval (idle_at spec4) (obj_expr o) == 0.
Proof.
  apply (idle_schedule_feasible df4 storage df4 model4 spec4);
    vm_compute; reflexivity.
Defined.

(** X8.  In every feasible point of a built model the stored energy is
    determined by the powers: [energy[t]] is the initial energy
    [capacity * soc_init] plus the energy added over timesteps [0 .. t],
    each step adding [power_ch * eff_ch * dt] and removing
    [power_dch * (1/eff_dch) * dt]. *)
Theorem energy_follows_powers (df : DataFrame) (d : gmap string Q)
    (profile : DataFrame) (m : ConcreteModel) (s : StorageSpec)
    (ρ : valuation) :
  build_arbitrage_model df d profile = Ok m →
  spec_of d = Some s →
  feasible m ρ →
  ∀ t, t ∈ time m →
    ρ Fbess_energy t == capacity s * soc_init s + gain s ρ (t + 1).
Proof.
  intros Hb Hs Hf. built_from Hb Hs. intros t Ht.
  apply elem_of_grid in Ht.
  pose proof (feasible_energy _ _ _ _ Hf (Z.to_nat t) ltac:(lia)) as H.
  by rewrite Z2Nat.id in H by lia.
Qed.

Lemma energy_follows_powers_witness :
  idle Fbess_energy 3%Z
  == capacity spec4 * soc_init spec4 + gain spec4 idle (3 + 1).
Proof.
  apply (energy_follows_powers df4 storage df4 model4 spec4 idle);
    try (vm_compute; reflexivity).
  apply elem_of_grid. lia.
Defined.

(** X9.  Over the whole horizon a feasible schedule never takes more
    energy out of the store than it puts in: the energy added over all
    timesteps, after losses, is non-negative. *)
Theorem net_stored_energy_nonnegative (df : DataFrame) (d : gmap string Q)
    (profile : DataFrame) (m : ConcreteModel) (s : StorageSpec)
    (ρ : valuation) :
  build_arbitrage_model df d profile = Ok m →
  spec_of d = Some s →
  feasible m ρ →
  0 <= gain s ρ (len df).
Proof.
  intros Hb Hs Hf. built_from Hb Hs.
  apply (feasible_gain _ _ _ _ Hf). lia.
Qed.

Lemma net_stored_energy_nonnegative_witness : 0 <= gain spec4 idle (len df4).
Proof.
  apply (net_stored_energy_nonnegative df4 storage df4 model4 spec4 idle);
    vm_compute; reflexivity.
Defined.

Lemma price_at_flat (profile : DataFrame) (p : Q) (t : Z) :
  Forall (λ r, price r == p) profile →
  (0 ≤ t < len profile)%Z → price_at profile t == p.
Proof.
  intros Hp Ht. unfold price_at, len in *.
  destruct (profile !! Z.to_nat t) as [r|] eqn:E.
  - cbn. by apply (Forall_lookup_1 _ _ _ _ Hp E).
  - apply lookup_ge_None in E. lia.
Qed.

(** One timestep at a non-negative price: buying the charged energy and
    selling the discharged one costs at least the price of what the store
    gains. *)
Lemma step_cost_ge_gain (s : StorageSpec) (ρ : valuation) (t : Z) (p : Q) :
  eff_ch s <= 1 → 0 < eff_dch s → eff_dch s <= 1 → 0 <= p →
  0 <= ρ Fpower_ch t → 0 <= ρ Fpower_dch t →
  p * step_gain s ρ t <= (ρ Fpower_ch t - ρ Fpower_dch t) * dt * p.
Proof.
  intros Hec Hed0 Hed1 Hp Hch Hdch. unfold step_gain, dt.
  assert (Hinv : 1 <= 1 / eff_dch s).
  { apply Qle_shift_div_l; [done|]. by rewrite Qmult_1_l. }
  set (inv := 1 / eff_dch s) in *. clearbody inv.
  set (ch := ρ Fpower_ch t) in *. set (dch := ρ Fpower_dch t) in *.
  clearbody ch dch.
  assert (H1 : 0 <= p * ch) by (by apply Qmult_le_0_compat).
  assert (H2 : 0 <= p * dch) by (by apply Qmult_le_0_compat).
  nra.
Qed.

(** X10.  At a flat, non-negative price there is nothing to earn: with a
    charge efficiency of at most 1 and a discharge efficiency in (0, 1],
    every feasible schedule of a built model has a non-negative objective
    value, so no schedule beats staying idle. *)
Theorem flat_price_no_profit (df : DataFrame) (d : gmap string Q)
    (profile : DataFrame) (m : ConcreteModel) (s : StorageSpec)
    (ρ : valuation) (p : Q) :
  build_arbitrage_model df d profile = Ok m →
  spec_of d = Some s →
  eff_ch s <= 1 → 0 < eff_dch s → eff_dch s <= 1 →
  0 <= p → Forall (λ r, price r == p) profile →
  feasible m ρ →
  ∃ o, obj m = Some o ∧ 0 <= eval ρ (obj_expr o).
Proof.
  intros Hb Hs Hec Hed0 Hed1 Hp Hflat Hf. built_from Hb Hs.
  eexists. split; [reflexivity|]. cbn [obj_expr]. rewrite eval_objective.
  apply Qle_trans with (p * gain s ρ (len df)).
  - apply Qmult_le_0_compat; [done|]. apply (feasible_gain _ _ _ _ Hf). lia.
  - unfold gain. rewrite <- Qsum_fmap_scale. apply Qsum_fmap_le.
    intros t Ht. apply elem_of_grid in Ht.
    destruct (feasible_in_box _ _ _ _ Hf t Ht) as ((Hch & _) & (Hdch & _) & _).
    rewrite (price_at_flat profile p t) by (done || lia).
    by apply step_cost_ge_gain.
Qed.

Lemma flat_price_no_profit_witness :
  ∃ o, obj (closed_model spec4 df_flat 4) = Some o
       ∧ 0 <= eval idle (obj_expr o).
Proof.
  apply (flat_price_no_profit df_flat storage df_flat
           (closed_model spec4 df_flat 4) spec4 idle 30);
    try (vm_compute; reflexivity); try (vm_compute; discriminate).
  repeat constructor.
Defined.

Lemma step_cost_bounded (A B ch dch p : Q) :
  0 <= ch → ch <= A → 0 <= dch → dch <= B →
  - ((A + B) * dt) * Qabs p <= (ch - dch) * dt * p.
Proof.
  intros H1 H2 H3 H4. unfold dt.
  destruct (Qlt_le_dec p 0) as [Hp|Hp].
  - rewrite Qabs_neg by (by apply Qlt_le_weak). nra.
  - rewrite Qabs_pos by done. nra.
Qed.

(** X11.  The objective of a built model is bounded below on its feasible
    points, by minus the two power limits together times [dt] times the
    sum of the absolute prices over the grid: the program is never
    unbounded. *)
Theorem objective_bounded_below (df : DataFrame) (d : gmap string Q)
    (profile : DataFrame) (m : ConcreteModel) (s : StorageSpec)
    (ρ : valuation) :
  build_arbitrage_model df d profile = Ok m →
  spec_of d = Some s →
  feasible m ρ →
  ∃ o, obj m = Some o
    ∧ - ((capacity s * erate_ch s + capacity s * erate_dch s) * dt)
        * Qsum ((λ t, Qabs (price_at profile t)) <$> time m)
      <= eval ρ (obj_expr o).
Proof.
  intros Hb Hs Hf. built_from Hb Hs.
  eexists. split; [reflexivity|]. cbn [obj_expr closed_model time].
  rewrite eval_objective, <- Qsum_fmap_scale. apply Qsum_fmap_le.
  intros t Ht. apply elem_of_grid in Ht.
  destruct (feasible_in_box _ _ _ _ Hf t Ht)
    as ((Hch & Hch') & (Hdch & Hdch') & _).
  by apply step_cost_bounded.
Qed.

Lemma objective_bounded_below_witness :
  ∃ o, obj model4 = Some o
    ∧ - ((capacity spec4 * erate_ch spec4 + capacity spec4 * erate_dch spec4)
         * dt)
        * Qsum ((λ t, Qabs (price_at df4 t)) <$> time model4)
      <= eval idle (obj_expr o).
Proof.
  apply (objective_bounded_below df4 storage df4 model4 spec4 idle);
    vm_compute; reflexivity.
Defined.

(** ** The read-back after the builder *)

Lemma spec_of_capacity (d : gmap string Q) (s : StorageSpec) :
  spec_of d = Some s → d !! "capacity"%string = Some (capacity s).
Proof.
  unfold spec_of. intros H.
  destruct (d !! "capacity"%string) as [c|]; [|discriminate].
  by simplify_option_eq.
Qed.

(** X12.  The read-back on a built model, case by case and in the order
    the cell reaches them: [KeyError] without a capacity; [ValueError] when
    a power value is missing, or when the frame has rows but not as many
    as the grid has steps (a frame without rows takes the list as it is);
    then, for a capacity of zero, [ZeroDivisionError] if the first energy
    value is there and [ValueError] if it is not; for any other capacity
    [ValueError] when an energy value is missing, and the columns
    otherwise. *)
Theorem read_back_error_order (df : DataFrame) (d : gmap string Q)
    (profile : DataFrame) (m : ConcreteModel) (st : gmap string Q)
    (sol : Solution) (frame0 : DataFrame) :
  build_arbitrage_model df d profile = Ok m →
  write_results st m sol frame0
  = match st !! "capacity"%string with
    | None => Raise KeyError
    | Some cap =>
        if negb (forallb (has_power sol) (time m)) then Raise ValueError
        else if negb (bool_decide (length frame0 = 0%nat
                                   ∨ length (time m) = length frame0))
        then Raise ValueError
        else if Qeq_bool cap 0
        then (if has_energy sol 0 then Raise ZeroDivisionError
              else Raise ValueError)
        else if forallb (has_energy sol) (time m)
        then Ok {| frame := frame0; power := net_power sol <$> time m;
                   soc := soc_of sol cap <$> time m |}
        else Raise ValueError
    end.
Proof.
  intros Hb. apply build_arbitrage_model_Ok in Hb as (s & _ & Hn & _ & ->).
  cbn [closed_model time].
  apply write_results_on_grid; auto with grid. lia.
Qed.

(** No capacity and no values: the missing power value is reported, not
    the division. *)
Lemma read_back_error_order_witness :
  write_results storage_zero model4 sol_absent df4 = Raise ValueError.
Proof.
  rewrite (read_back_error_order df4 storage df4 model4 storage_zero
             sol_absent df4); vm_compute; reflexivity.
Defined.

(** X13.  The builder and the read-back fit together through the global
    frame: on a model built over [df], with a non-zero capacity and all
    values loaded, writing into [df] itself succeeds and gives two columns
    of [len(df)] entries; writing into a frame that has rows, but not
    [len(df)] of them, raises [ValueError]; and a frame without rows takes
    the two columns as they are, its rows numbered from 0 to
    [len(df) - 1]. *)
Theorem read_back_fits_frame (df : DataFrame) (d : gmap string Q)
    (profile : DataFrame) (m : ConcreteModel) (s : StorageSpec)
    (sol : Solution) :
  build_arbitrage_model df d profile = Ok m →
  spec_of d = Some s →
  Qeq_bool (capacity s) 0 = false →
  forallb (has_values sol) (time m) = true →
  (∃ r, write_results d m sol df = Ok r ∧ frame r = df
        ∧ length (power r) = length df ∧ length (soc r) = length df)
  ∧ (∀ frame0, frame0 ≠ [] → length frame0 ≠ length df →
       write_results d m sol frame0 = Raise ValueError)
  ∧ (∃ r, write_results d m sol [] = Ok r
          ∧ Results_index r = seqZ 0 (len df)
          ∧ length (power r) = length df ∧ length (soc r) = length df).
Proof.
  intros Hb Hs Hcap Hall.
  pose proof (spec_of_capacity d s Hs) as Hst. built_from Hb Hs.
  cbn [closed_model time] in Hall.
  assert (Hlen : length (seqZ 0 (len df)) = length df)
    by (rewrite length_seqZ; unfold len; lia).
  assert (Heq : ∀ frame0,
    write_results d (closed_model s profile (len df)) sol frame0
    = if bool_decide (length frame0 = 0%nat
                      ∨ length (seqZ 0 (len df)) = length frame0)
      then Ok {| frame := frame0;
                 power := net_power sol <$> seqZ 0 (len df);
                 soc := soc_of sol (capacity s) <$> seqZ 0 (len df) |}
      else Raise ValueError).
  { intros frame0.
    rewrite (write_results_on_grid _ (len df)) by (auto with grid || lia).
    rewrite Hst, Hcap. unfold has_values in Hall.
    rewrite forallb_andb in Hall. apply andb_true_iff in Hall as [-> ->].
    cbn [negb]. by destruct (bool_decide _). }
  split; [|split].
  - eexists. rewrite Heq, bool_decide_true by auto.
    split; [reflexivity|]. cbn [frame power soc].
    by rewrite !length_fmap.
  - intros frame0 Hne Hl. rewrite Heq, bool_decide_false; [reflexivity|].
    intros [H0|H1]; [by destruct frame0|congruence].
  - eexists. rewrite Heq, bool_decide_true by auto.
    split; [reflexivity|]. unfold Results_index. cbn [frame power soc].
    rewrite !length_fmap, Hlen. by unfold len.
Qed.

Lemma read_back_fits_frame_witness :
  (∃ r, write_results storage model4 sol_idle df4 = Ok r ∧ frame r = df4
        ∧ length (power r) = length df4 ∧ length (soc r) = length df4)
  ∧ (∀ frame0, frame0 ≠ [] → length frame0 ≠ length df4 →
       write_results storage model4 sol_idle frame0 = Raise ValueError)
  ∧ (∃ r, write_results storage model4 sol_idle [] = Ok r
          ∧ Results_index r = seqZ 0 (len df4)
          ∧ length (power r) = length df4 ∧ length (soc r) = length df4).
Proof.
  apply (read_back_fits_frame df4 storage df4 model4 spec4 sol_idle);
    vm_compute; reflexivity.
Defined.

(** ** The plot *)


(** ** Power gradients *)

Lemma is_zero_not_nan (l : list float) :
  Forall is_zero l → List.filter (λ x, negb (is_nan x)) l = l.
Proof.
  induction 1 as [|x l [->| ->] _ IH]; [done|..]; cbn [List.filter];
    by rewrite IH.
Qed.

(** The maximum is one of the cells. *)
Lemma foldl_fmax_pick (P : float → Prop) (l : list float) (a : float) :
  P a → Forall P l → P (foldl fmax a l).
Proof.
  revert a. induction l as [|x l IH]; intros a Ha Hl; [done|].
  apply Forall_cons in Hl as [Hx Hl]. cbn [foldl]. apply IH; [|done].
  unfold fmax. by destruct (a <? x)%float.
Qed.

Lemma Forall_diff_from (P : float → Prop) (l : list float) (p : float) :
  (∀ a b, a ∈ p :: l → b ∈ l → P (b - a)%float) → Forall P (diff_from p l).
Proof.
  revert p. induction l as [|x l IH]; intros p H; cbn [diff_from]; [done|].
  constructor.
  - apply H; constructor.
  - apply IH. intros a b Ha Hb. apply H.
    + by constructor.
    + by constructor.
Qed.

Lemma zero_ramp_cell (a b M : float) :
  is_zero a → is_zero b → is_zero M →
  ((b - a) / M)%float = nan ∧ ((b - a) * 10 / M)%float = nan.
Proof. intros [->| ->] [->| ->] [->| ->]; split; reflexivity. Qed.

Lemma nan_ramp_cell (M : float) :
  is_zero M → (nan / M)%float = nan ∧ (nan * 10 / M)%float = nan.
Proof. intros [->| ->]; split; reflexivity. Qed.

(** X17.  A profile of zeros raises nothing: every cell of either ramp is
    not-a-number, the division being [0 / 0]. *)
Theorem ramp_of_zero_profile (l : list float) :
  Forall is_zero l →
  Forall (λ v, v = nan) (df_solar_ramp l)
  ∧ Forall (λ v, v = nan) (df_wind_ramp l).
Proof.
  intros Hz. destruct l as [|x rest]; [split; constructor|].
  assert (HM : is_zero (col_max (x :: rest))).
  { unfold col_max. rewrite (is_zero_not_nan _ Hz).
    apply Forall_cons in Hz as [Hx Hr]. by apply foldl_fmax_pick. }
  unfold df_solar_ramp, df_wind_ramp, diff. cbn [fmap list_fmap].
  destruct (nan_ramp_cell _ HM) as [Hn1 Hn2].
  split; (constructor; [done|]); apply Forall_fmap, Forall_diff_from;
    intros a b Ha Hb; rewrite Forall_forall in Hz;
    apply (zero_ramp_cell a b _ (Hz a Ha) (Hz b ltac:(by constructor)) HM).
Qed.

Lemma ramp_of_zero_profile_witness :
  Forall (λ v, v = nan) (df_solar_ramp [0; 0; 0]%float)
  ∧ Forall (λ v, v = nan) (df_wind_ramp [0; 0; 0]%float).
Proof.
  apply (ramp_of_zero_profile [0; 0; 0]%float). repeat constructor.
Defined.

(** ** The global frame *)

(** X19.  Of the notebook's global [df] the builder reads the number of
    rows and nothing else: two global frames of the same length give the
    same result for the same arguments, whatever their prices and
    timestamps. *)
Theorem build_reads_length_of_global_frame (df df' : DataFrame)
    (d : gmap string Q) (profile : DataFrame) :
  length df = length df' →
  build_arbitrage_model df d profile = build_arbitrage_model df' d profile.
Proof.
  intros H. rewrite !build_arbitrage_model_eq. unfold len. by rewrite H.
Qed.

(** The notebook's prices against a flat global frame of the same length. *)
Lemma build_reads_length_of_global_frame_witness :
  build_arbitrage_model df4 storage df4
  = build_arbitrage_model df_flat storage df4.
Proof. apply build_reads_length_of_global_frame. reflexivity. Defined.
